(** * genauo: the session store and the counting-review workflow

    A shallow embedding of the TypeScript sources
      - [src/types/index.ts]            (the data model),
      - [src/services/StorageService.ts] (the session repository and export),
      - [src/services/MLService.ts]      (the remote count and its placeholders),
      - [src/screens/ReviewScreen.tsx]   (the review workflow handlers),
      - [src/screens/SessionScreen.tsx]  (image removal, the average),
      - [src/screens/HomeScreen.tsx]     (the session list),
      - [src/screens/NewSessionScreen.tsx] (the session-name guard),
    followed by the properties established about them.

    Modelling conventions.
      - A JavaScript string is a Rocq [string]; each character stands for one
        UTF-16 code unit below 256.
      - A JavaScript [number] is a [JsNum]: not-a-number, an infinity, or a
        finite rational.  Finite arithmetic is exact (no rounding to binary64)
        and there is no negative zero.  Binary64 computes the same values as
        long as the integers involved stay within [Js.exactUpTo] = 2^52; what
        is proved of a square root or of a number read from a detector
        response is stated within that bound.
      - The counts kept in the session store are integers ([Z]).
      - [await]ed storage calls are steps of a state-and-exception monad over
        the AsyncStorage item; storage I/O itself is taken to succeed.
      - [Date.now()], [new Date()] and [Math.random()] are read from explicit
        arguments. *)

From Stdlib Require Import ZArith QArith Qround List String Ascii Bool Lia.
From Stdlib Require Import DecimalString.
From Stdlib Require DecimalPos.
Import ListNotations.

Local Open Scope string_scope.
Local Open Scope list_scope.
Local Open Scope Z_scope.

(** String concatenation, as [+] on strings and template literals. *)
Notation "a +++ b" := (String.append a b) (at level 60, right associativity).

(* ================================================================== *)
(** ** The JavaScript fragment the sources rely on *)

Module Js.

(** Numbers. *)
Inductive JsNum : Type :=
| NaN
| Inf (negative : bool)
| Fin (q : Q).

Definition ofZ (z : Z) : JsNum := Fin (inject_Z z).

Definition Qsign_neg (q : Q) : bool := negb (Qle_bool 0 q).
Definition Qis_zero (q : Q) : bool := Qeq_bool q 0.

Definition neg (a : JsNum) : JsNum :=
  match a with
  | NaN => NaN
  | Inf s => Inf (negb s)
  | Fin q => Fin (- q)%Q
  end.

Definition add (a b : JsNum) : JsNum :=
  match a, b with
  | NaN, _ | _, NaN => NaN
  | Inf s, Inf t => if Bool.eqb s t then Inf s else NaN
  | Inf s, Fin _ | Fin _, Inf s => Inf s
  | Fin p, Fin q => Fin (p + q)%Q
  end.

Definition sub (a b : JsNum) : JsNum := add a (neg b).

Definition mul (a b : JsNum) : JsNum :=
  match a, b with
  | NaN, _ | _, NaN => NaN
  | Inf s, Inf t => Inf (xorb s t)
  | Inf s, Fin q | Fin q, Inf s =>
      if Qis_zero q then NaN else Inf (xorb s (Qsign_neg q))
  | Fin p, Fin q => Fin (p * q)%Q
  end.

Definition div (a b : JsNum) : JsNum :=
  match a, b with
  | NaN, _ | _, NaN => NaN
  | Inf _, Inf _ => NaN
  | Inf s, Fin q => Inf (xorb s (Qsign_neg q))
  | Fin _, Inf _ => Fin 0
  | Fin p, Fin q =>
      if Qis_zero q
      then (if Qis_zero p then NaN else Inf (Qsign_neg p))
      else Fin (p / q)%Q
  end.

(** [a < b]; every comparison with [NaN] is false. *)
Definition lt (a b : JsNum) : bool :=
  match a, b with
  | NaN, _ | _, NaN => false
  | Inf s, Inf t => s && negb t
  | Inf s, Fin _ => s
  | Fin _, Inf t => negb t
  | Fin p, Fin q => negb (Qle_bool q p)
  end.

Definition gt (a b : JsNum) : bool := lt b a.

(** [a === b] and [a !== b] on numbers. *)
Definition strict_eq (a b : JsNum) : bool :=
  match a, b with
  | Inf s, Inf t => Bool.eqb s t
  | Fin p, Fin q => Qeq_bool p q
  | _, _ => false
  end.

Definition strict_neq (a b : JsNum) : bool := negb (strict_eq a b).

(** ToBoolean on numbers, and [a || b]. *)
Definition truthy (a : JsNum) : bool :=
  match a with
  | NaN => false
  | Inf _ => true
  | Fin q => negb (Qis_zero q)
  end.

Definition or (a b : JsNum) : JsNum := if truthy a then a else b.

(** [Math.ceil]. *)
Definition Math_ceil (a : JsNum) : JsNum :=
  match a with
  | Fin q => ofZ (Qceiling q)
  | _ => a
  end.

(** The least natural number whose square reaches [n] (for [0 <= n]). *)
Definition ceil_sqrt (n : Z) : Z :=
  let s := Z.sqrt n in if s * s =? n then s else s + 1.

(** The integers up to which the exact model and binary64 agree on every
    operation used here: 2^52.  An integer [n <= 2^52] is a binary64 value;
    for [k = floor(sqrt n) < 2^26] and [n] no square, [sqrt n] exceeds [k]
    by more than [1 / (2 k + 1) > 2^-27], twice the half-ulp [2^-28] of the
    doubles below [2^26], so the rounded root stays above [k] and its
    ceiling is [k + 1]; a quotient [n / c] with [c <= 2^26] that is no
    integer is at least [2^-26] away from the integers, so its ceiling is
    exact as well.  From [2^52 + 1] on the rounded root can fall on [k]. *)
Definition exactUpTo : Z := 2 ^ 52.

(** [Math.ceil(Math.sqrt(a))].  A square root is not a rational in general,
    so the composite is modelled: for an integer [k >= 0], [sqrt q <= k]
    exactly when [ceil q <= k * k].  This is the ceiling of the real root;
    it is the value the code computes for arguments up to [exactUpTo]. *)
Definition Math_ceil_sqrt (a : JsNum) : JsNum :=
  match a with
  | NaN => NaN
  | Inf true => NaN
  | Inf false => Inf false
  | Fin q => if Qsign_neg q then NaN else ofZ (ceil_sqrt (Qceiling q))
  end.

(** The same value up to the representation of the rational. *)
Definition eqv (a b : JsNum) : Prop :=
  match a, b with
  | NaN, NaN => True
  | Inf s, Inf t => s = t
  | Fin p, Fin q => (p == q)%Q
  | _, _ => False
  end.

(** Strings. *)

(** The WhiteSpace and LineTerminator code units below 256:
    TAB, LF, VT, FF, CR, SP and NBSP. *)
Definition isWhiteSpace (c : ascii) : bool :=
  let n := Z.of_N (N_of_ascii c) in
  ((9 <=? n) && (n <=? 13)) || (n =? 32) || (n =? 160).

Fixpoint trimStart (s : string) : string :=
  match s with
  | String c s' => if isWhiteSpace c then trimStart s' else s
  | EmptyString => EmptyString
  end.

Definition reverse (s : string) : string :=
  string_of_list_ascii (List.rev (list_ascii_of_string s)).

Definition trimEnd (s : string) : string := reverse (trimStart (reverse s)).

(** [String.prototype.trim]. *)
Definition trim (s : string) : string := trimEnd (trimStart s).

(** ToBoolean on strings: only the empty string is falsy. *)
Definition truthy_string (s : string) : bool :=
  match s with
  | EmptyString => false
  | String _ _ => true
  end.

(** The decimal rendering of an integer, as [String(n)], [n.toString()] and
    template literals give it (for integers below 10^21 in size, which
    JavaScript prints without an exponent). *)
Definition toString (z : Z) : string := NilZero.string_of_int (Z.to_int z).

(** The value of a character as a digit: 0-9, a-z, A-Z. *)
Definition digitValue (c : ascii) : option Z :=
  let n := Z.of_N (N_of_ascii c) in
  if (48 <=? n) && (n <=? 57) then Some (n - 48)
  else if (97 <=? n) && (n <=? 122) then Some (n - 87)
  else if (65 <=? n) && (n <=? 90) then Some (n - 55)
  else None.

(** The value of the longest prefix of radix-[R] digits; [acc] is [None]
    until a digit has been read. *)
Fixpoint parseDigits (R : Z) (s : string) (acc : option Z) : option Z :=
  match s with
  | String c s' =>
      match digitValue c with
      | Some d =>
          if d <? R
          then parseDigits R s' (Some (R * match acc with Some a => a | None => 0 end + d))
          else acc
      | None => acc
      end
  | EmptyString => acc
  end.

Definition startsWith0x (s : string) : bool :=
  match s with
  | String "0" (String c _) => Ascii.eqb c "x" || Ascii.eqb c "X"
  | _ => false
  end.

Definition drop2 (s : string) : string :=
  match s with
  | String _ (String _ r) => r
  | _ => s
  end.

(** [parseInt(string, radix)]; [radix = 0] stands for an omitted radix.
    The result is the integer that the digits denote; the code rounds it to
    binary64, which changes nothing for integers of size up to 2^53. *)
Definition parseInt (input : string) (radix : Z) : JsNum :=
  let str := trimStart input in
  let '(sign, str) :=
    match str with
    | String "-" r => (-1, r)
    | String "+" r => (1, r)
    | _ => (1, str)
    end in
  if (radix =? 0) || ((2 <=? radix) && (radix <=? 36)) then
    let stripPrefix := (radix =? 0) || (radix =? 16) in
    let R := if radix =? 0 then 10 else radix in
    let '(R, str) :=
      if stripPrefix && startsWith0x str then (16, drop2 str) else (R, str) in
    match parseDigits R str None with
    | None => NaN
    | Some mathInt => ofZ (sign * mathInt)
    end
  else NaN.

Definition isDigit (c : ascii) : bool :=
  let n := Z.of_N (N_of_ascii c) in (48 <=? n) && (n <=? 57).

Fixpoint takeDigits (s : string) : string :=
  match s with
  | String c s' => if isDigit c then String c (takeDigits s') else EmptyString
  | EmptyString => EmptyString
  end.

(** [s.match(/\d+/)]: the first maximal run of decimal digits, or [null]. *)
Fixpoint match_digits (s : string) : option string :=
  match s with
  | String c s' => if isDigit c then Some (takeDigits s) else match_digits s'
  | EmptyString => None
  end.

(** Arrays. *)

(** [arr.findIndex(p)], [-1] when no element satisfies [p]. *)
Fixpoint findIndex {A} (p : A -> bool) (l : list A) : Z :=
  match l with
  | [] => -1
  | a :: l' =>
      if p a then 0
      else let i := findIndex p l' in if i <? 0 then -1 else i + 1
  end.

Fixpoint set_nth {A} (n : nat) (x : A) (l : list A) : list A :=
  match l, n with
  | [], _ => []
  | _ :: l', O => x :: l'
  | a :: l', S n' => a :: set_nth n' x l'
  end.

(** [arr[i] = x] for an index inside the array (the only use in the
    sources follows a successful [findIndex]). *)
Definition assign {A} (i : Z) (x : A) (l : list A) : list A :=
  set_nth (Z.to_nat i) x l.

(** [arr.length] as a number. *)
Definition length {A} (l : list A) : Z := Z.of_nat (List.length l).

(** Exceptions: [throw new Error(message)]. *)
Inductive Exn : Type := Error (message : string).

Inductive Result (A : Type) : Type :=
| Ok (a : A)
| Throw (e : Exn).
Arguments Ok {A} a.
Arguments Throw {A} e.

(** [try { body } catch { handler }]. *)
Definition try_catch {A} (body : Result A) (handler : Exn -> Result A) : Result A :=
  match body with
  | Ok a => Ok a
  | Throw e => handler e
  end.

Definition bind {A B} (r : Result A) (k : A -> Result B) : Result B :=
  match r with
  | Ok a => k a
  | Throw e => Throw e
  end.

(** A call of the built-in [parseInt] inside a [try] block: it returns
    not-a-number where no integer can be read, and never throws. *)
Definition call_parseInt (input : string) (radix : Z) : Result JsNum :=
  Ok (parseInt input radix).

(** [Math.round]: to the nearest integer, halves upwards. *)
Definition Math_round (a : JsNum) : JsNum :=
  match a with
  | Fin q => ofZ (Qfloor (q + (1 # 2)))
  | _ => a
  end.

(** The integer that an integer-valued number stands for.  The store keeps
    counts as integers; the numbers handed to it are integer-valued. *)
Definition integerOf (a : JsNum) : Z :=
  match a with
  | Fin q => Qfloor q
  | _ => 0
  end.

End Js.

(* ================================================================== *)
(** ** The data model ([src/types/index.ts]) *)

Module BoundingBox.
Record t : Type := mk {
  x : Js.JsNum;
  y : Js.JsNum;
  width : Js.JsNum;
  height : Js.JsNum
}.
End BoundingBox.

Module Detection.
Record t : Type := mk {
  id : string;
  bbox : BoundingBox.t;
  confidence : Js.JsNum;
  class : option string;
  manual : option bool
}.
End Detection.

(** Dates live in the store in their JSON form, an ISO-8601 string. *)
Module ImageCount.
Record t : Type := mk {
  id : string;
  path : string;
  count : Z;
  timestamp : string;
  corrections : Z;
  detections : list Detection.t
}.
End ImageCount.

Module Session.
Record t : Type := mk {
  id : string;
  name : string;
  createdAt : string;
  images : list ImageCount.t;
  totalCount : Z;
  objectType : option string
}.
End Session.

(* ================================================================== *)
(** ** The session repository ([src/services/StorageService.ts]) *)

Module StorageService.

(** The AsyncStorage item under [SESSIONS_KEY]: absent, or the stored
    collection. *)
Definition Store : Type := option (list Session.t).

(** An [async] method: it may read and write the item and may throw. *)
Definition M (A : Type) : Type := Store -> Js.Result A * Store.

Definition ret {A} (a : A) : M A := fun st => (Js.Ok a, st).

Definition throw {A} (e : Js.Exn) : M A := fun st => (Js.Throw e, st).

Definition bind {A B} (m : M A) (k : A -> M B) : M B :=
  fun st =>
    match m st with
    | (Js.Ok a, st') => k a st'
    | (Js.Throw e, st') => (Js.Throw e, st')
    end.

Notation "x <- m ;; k" := (bind m (fun x => k))
  (at level 61, m at next level, right associativity).

Definition getItem : M (option (list Session.t)) := fun st => (Js.Ok st, st).

Definition setItem (sessions : list Session.t) : M unit :=
  fun _ => (Js.Ok tt, Some sessions).

Definition getAllSessions : M (list Session.t) :=
  data <- getItem ;;
  ret (match data with Some sessions => sessions | None => [] end).

Definition getSession (sessionId : string) : M (option Session.t) :=
  sessions <- getAllSessions ;;
  ret (find (fun s => String.eqb (Session.id s) sessionId) sessions).

Definition createSession (name : string) (objectType : option string)
    (now : Z) (date : string) : M Session.t :=
  let session :=
    Session.mk ("session_" +++ Js.toString now) name date [] 0 objectType in
  sessions <- getAllSessions ;;
  let sessions := session :: sessions in
  _ <- setItem sessions ;;
  ret session.

Definition updateSession (session : Session.t) : M unit :=
  sessions <- getAllSessions ;;
  let index :=
    Js.findIndex (fun s => String.eqb (Session.id s) (Session.id session)) sessions in
  if 0 <=? index
  then setItem (Js.assign index session sessions)
  else ret tt.

Definition deleteSession (sessionId : string) : M unit :=
  sessions <- getAllSessions ;;
  let filtered :=
    filter (fun s => negb (String.eqb (Session.id s) sessionId)) sessions in
  setItem filtered.

(** [images.reduce((sum, img) => sum + img.count, 0)]. *)
Definition sumCounts (images : list ImageCount.t) : Z :=
  fold_left (fun sum img => sum + ImageCount.count img) images 0.

Definition addImageToSession (sessionId imagePath : string) (count : Z)
    (detections : list Detection.t) (now : Z) (date : string) : M unit :=
  session <- getSession sessionId ;;
  match session with
  | None => throw (Js.Error "Session not found")
  | Some session =>
      let imageCount :=
        ImageCount.mk ("img_" +++ Js.toString now) imagePath count date 0 detections in
      let images := Session.images session ++ [imageCount] in
      let session :=
        Session.mk (Session.id session) (Session.name session)
          (Session.createdAt session) images (sumCounts images)
          (Session.objectType session) in
      updateSession session
  end.

(** In-place update of the first element that satisfies [p]. *)
Fixpoint update_first {A} (p : A -> bool) (f : A -> A) (l : list A) : list A :=
  match l with
  | [] => []
  | a :: l' => if p a then f a :: l' else a :: update_first p f l'
  end.

Definition updateImageCount (sessionId imageId : string)
    (newCount corrections : Z) : M unit :=
  session <- getSession sessionId ;;
  match session with
  | None => throw (Js.Error "Session not found")
  | Some session =>
      let is_image img := String.eqb (ImageCount.id img) imageId in
      match find is_image (Session.images session) with
      | Some _ =>
          let images :=
            update_first is_image
              (fun image =>
                 ImageCount.mk (ImageCount.id image) (ImageCount.path image)
                   newCount (ImageCount.timestamp image) corrections
                   (ImageCount.detections image))
              (Session.images session) in
          let session :=
            Session.mk (Session.id session) (Session.name session)
              (Session.createdAt session) images (sumCounts images)
              (Session.objectType session) in
          updateSession session
      | None => ret tt
      end
  end.

Definition csvHeader : string :=
  "Image ID,Count,Timestamp,Corrections" +++ String "010" "".

Definition csvRow (img : ImageCount.t) : string :=
  ImageCount.id img +++ "," +++ Js.toString (ImageCount.count img) +++ ","
  +++ ImageCount.timestamp img +++ ","
  +++ Js.toString (ImageCount.corrections img) +++ String "010" "".

Definition csvTotal (session : Session.t) : string :=
  String "010" "Total Count:," +++ Js.toString (Session.totalCount session)
  +++ String "010" "".

Definition exportSessionAsCSV (sessionId : string) : M string :=
  session <- getSession sessionId ;;
  match session with
  | None => throw (Js.Error "Session not found")
  | Some session =>
      let csv := csvHeader in
      let csv :=
        fold_left (fun csv img => csv +++ csvRow img) (Session.images session) csv in
      let csv := csv +++ csvTotal session in
      ret csv
  end.

(** The settings record under [SETTINGS_KEY]: the default fields and the
    credential that the review screen adds. *)
Record Settings : Type := mkSettings {
  sensitivity : Q;
  minObjectSize : Z;
  enableHaptics : bool;
  enableSound : bool;
  autoSave : bool;
  theme : string;
  openaiApiKey : option string
}.

(** The AsyncStorage item under [SETTINGS_KEY]. *)
Definition SettingsItem : Type := option Settings.

Definition getDefaultSettings : Settings :=
  mkSettings (7 # 10) 20 true false true "dark" None.

Definition getSettings (item : SettingsItem) : Settings :=
  match item with
  | Some settings => settings
  | None => getDefaultSettings
  end.

Definition saveSettings (settings : Settings) (item : SettingsItem)
    : SettingsItem :=
  Some settings.

End StorageService.

(* ================================================================== *)
(** ** Image removal ([src/screens/SessionScreen.tsx]) *)

Module SessionScreen.
Import StorageService.

Record State : Type := mk {
  session : option Session.t;
  loading : bool
}.

Definition loadSession (sessionId : string) (scr : State) : M State :=
  data <- getSession sessionId ;;
  ret (mk data false).

(** The [Delete] action of the confirmation dialog that [deleteImage]
    opens. *)
Definition deleteImage (imageId : string) (scr : State) : M State :=
  match session scr with
  | None => ret scr
  | Some session =>
      let updatedImages :=
        filter (fun img => negb (String.eqb (ImageCount.id img) imageId))
          (Session.images session) in
      let updatedSession :=
        Session.mk (Session.id session) (Session.name session)
          (Session.createdAt session) updatedImages (sumCounts updatedImages)
          (Session.objectType session) in
      _ <- updateSession updatedSession ;;
      ret (mk (Some updatedSession) (loading scr))
  end.

(** The [Avg/Image] figure of the statistics row. *)
Definition averagePerImage (session : Session.t) : Js.JsNum :=
  if 0 <? Js.length (Session.images session)
  then Js.Math_round
         (Js.div (Js.ofZ (Session.totalCount session))
            (Js.ofZ (Js.length (Session.images session))))
  else Js.ofZ 0.

End SessionScreen.

(* ================================================================== *)
(** ** The session list ([src/screens/HomeScreen.tsx]) *)

Module HomeScreen.
Import StorageService.

Record State : Type := mk {
  sessions : list Session.t;
  refreshing : bool
}.

Definition loadSessions (scr : State) : M State :=
  data <- getAllSessions ;;
  ret (mk data (refreshing scr)).

(** The [Delete] action of the confirmation dialog that [deleteSession]
    opens. *)
Definition deleteSession (sessionId : string) (scr : State) : M State :=
  _ <- StorageService.deleteSession sessionId ;;
  loadSessions scr.

End HomeScreen.

(* ================================================================== *)
(** ** The session-name guard ([src/screens/NewSessionScreen.tsx]) *)

Module NewSessionScreen.
Import StorageService.

Record State : Type := mk {
  sessionName : string;
  objectType : string
}.

Inductive Outcome : Type :=
| Alerted (message : string)
| NavigatedToCamera (sessionId : string).

Definition createSession (scr : State) (now : Z) (date : string) : M Outcome :=
  if negb (Js.truthy_string (Js.trim (sessionName scr)))
  then ret (Alerted "Please enter a session name")
  else
    session <- StorageService.createSession
                 (Js.trim (sessionName scr))
                 (let t := Js.trim (objectType scr) in
                  if Js.truthy_string t then Some t else None)
                 now date ;;
    ret (NavigatedToCamera (Session.id session)).

End NewSessionScreen.

(* ================================================================== *)
(** ** The remote count and its placeholders ([src/services/MLService.ts]) *)

Module MLService.

(** [Alert.alert(title, message, buttons)]. *)
Record Alert : Type := mkAlert {
  title : string;
  message : string
}.

Record State : Type := mk {
  isReady : bool;
  apiKey : string
}.

(** What the chat-completions endpoint does with one request. *)
Inductive Completion : Type :=
| Rejected (message : string)
| NotOk (message : string)
| Content (content : string).

(** What the world outside the service answers during one request:
    [FileSystem.getInfoAsync], [FileSystem.readAsStringAsync] and [fetch]. *)
Record Remote : Type := mkRemote {
  fileExists : bool;
  readAsBase64 : Js.Result string;
  completion : Completion
}.

Definition initialize (ml : State) : State := mk true (apiKey ml).

Definition setApiKey (key : string) (ml : State) : State := mk (isReady ml) key.

(** The tail of [callOpenAIVision]: from the trimmed text of the response
    to the count. *)
Definition extractCount (result : string) : Js.JsNum :=
  let count := Js.ofZ 0 in
  let attempt :=
    Js.try_catch
      (Js.bind (Js.call_parseInt result 10) (fun count => Js.Ok count))
      (fun _ =>
         let numbers := Js.match_digits result in
         match numbers with
         | Some numbers0 => Js.Ok (Js.parseInt numbers0 10)
         | None => Js.Ok count
         end) in
  match attempt with
  | Js.Ok count => count
  | Js.Throw _ => count
  end.

Definition callOpenAIVision (base64Image objectType : string)
    (remote : Remote) : Js.Result Js.JsNum :=
  match completion remote with
  | Rejected message => Js.Throw (Js.Error message)
  | NotOk message => Js.Throw (Js.Error ("API Error: " +++ message))
  | Content content =>
      let result := Js.trim content in
      Js.Ok (extractCount result)
  end.

Definition placeholder_cell (row col index : Z) : Detection.t :=
  Detection.mk
    ("obj_" +++ Js.toString index)
    (BoundingBox.mk
       (Js.add (Js.ofZ 50) (Js.mul (Js.ofZ col) (Js.ofZ 100)))
       (Js.add (Js.ofZ 50) (Js.mul (Js.ofZ row) (Js.ofZ 100)))
       (Js.ofZ 60)
       (Js.ofZ 60))
    (Js.ofZ 1)
    (Some "object")
    (Some false).

(** [for (let col = 0; col < cols && index < count; col++) { push; index++ }],
    entered at [col] and [index]; [None] when the fuel runs out. *)
Fixpoint colLoop (fuel : nat) (cols count : Js.JsNum) (row col index : Z)
    (detections : list Detection.t) : option (Z * list Detection.t) :=
  match fuel with
  | O => None
  | S fuel' =>
      if Js.lt (Js.ofZ col) cols && Js.lt (Js.ofZ index) count
      then colLoop fuel' cols count row (col + 1) (index + 1)
             (detections ++ [placeholder_cell row col index])
      else Some (index, detections)
  end.

(** [for (let row = 0; row < rows && index < count; row++) { ... }]. *)
Fixpoint rowLoop (fuel colFuel : nat) (rows cols count : Js.JsNum)
    (row index : Z) (detections : list Detection.t)
    : option (list Detection.t) :=
  match fuel with
  | O => None
  | S fuel' =>
      if Js.lt (Js.ofZ row) rows && Js.lt (Js.ofZ index) count
      then
        match colLoop colFuel cols count row 0 index detections with
        | Some (index', detections') =>
            rowLoop fuel' colFuel rows cols count (row + 1) index' detections'
        | None => None
        end
      else Some detections
  end.

Definition gridCols (count : Js.JsNum) : Js.JsNum := Js.Math_ceil_sqrt count.

Definition gridRows (count : Js.JsNum) : Js.JsNum :=
  Js.Math_ceil (Js.div count (gridCols count)).

(** [generatePlaceholderDetections] run with a bound on the loop tests. *)
Definition generatePlaceholderDetections_run (fuel : nat) (count : Js.JsNum)
    : option (list Detection.t) :=
  let detections := [] in
  let cols := gridCols count in
  let rows := gridRows count in
  let index := 0 in
  rowLoop fuel fuel rows cols count 0 index detections.

(** A number of loop tests that is enough for [count]
    ([generatePlaceholderDetections_total] below). *)
Definition enoughFuel (count : Js.JsNum) : nat :=
  match count with
  | Js.Fin q => S (Z.to_nat (Qceiling q))
  | _ => 1%nat
  end.

Definition generatePlaceholderDetections (count : Js.JsNum) : list Detection.t :=
  match generatePlaceholderDetections_run (enoughFuel count) count with
  | Some detections => detections
  | None => []
  end.

Definition detectObjects (imagePath objectType : string) (remote : Remote)
    (ml : State) : Js.Result (list Detection.t) * State * list Alert :=
  let ml := if negb (isReady ml) then initialize ml else ml in
  if negb (Js.truthy_string (apiKey ml))
  then
    (Js.Ok [], ml,
     [mkAlert "API Key Required"
        "Please set your OpenAI API key in the app settings."])
  else
    let attempt :=
      if negb (fileExists remote)
      then Js.Throw (Js.Error "Image file does not exist")
      else
        Js.bind (readAsBase64 remote) (fun base64 =>
        Js.bind (callOpenAIVision base64 objectType remote) (fun count =>
        let detections := generatePlaceholderDetections count in
        Js.Ok detections)) in
    match attempt with
    | Js.Ok detections => (Js.Ok detections, ml, [])
    | Js.Throw _ =>
        (Js.Ok [], ml,
         [mkAlert "Detection Error"
            "Failed to count objects. Please try again."])
    end.

Definition createManualDetection (x y size : Js.JsNum) (now : Z)
    (random : string) : Detection.t :=
  Detection.mk
    ("manual_" +++ Js.toString now +++ "_" +++ random)
    (BoundingBox.mk
       (Js.sub x (Js.div size (Js.ofZ 2)))
       (Js.sub y (Js.div size (Js.ofZ 2)))
       size
       size)
    (Js.ofZ 1)
    (Some "manual")
    (Some true).

(** The default value of the [size] parameter. *)
Definition defaultSize : Js.JsNum := Js.ofZ 40.

End MLService.

(* ================================================================== *)
(** ** The review workflow ([src/screens/ReviewScreen.tsx]) *)

Module ReviewScreen.

Inductive Mode : Type := Auto | Manual.

Record Size : Type := mkSize {
  width : Js.JsNum;
  height : Js.JsNum
}.

(** The [useState] cells of the component. *)
Record State : Type := mk {
  detections : list Detection.t;
  isProcessing : bool;
  imageSize : Size;
  manualCorrections : Z;
  mode : Mode;
  objectType : string;
  showApiKeyInput : bool;
  apiKey : string;
  autoCount : option Z;
  manualCountInput : string
}.

Definition initialState : State :=
  mk [] false (mkSize (Js.ofZ 0) (Js.ofZ 0)) 0 Manual "objects" false "" None "".

Definition setDetections (v : list Detection.t) (s : State) : State :=
  mk v (isProcessing s) (imageSize s) (manualCorrections s) (mode s)
    (objectType s) (showApiKeyInput s) (apiKey s) (autoCount s)
    (manualCountInput s).

Definition setIsProcessing (v : bool) (s : State) : State :=
  mk (detections s) v (imageSize s) (manualCorrections s) (mode s)
    (objectType s) (showApiKeyInput s) (apiKey s) (autoCount s)
    (manualCountInput s).

Definition setImageSize (v : Size) (s : State) : State :=
  mk (detections s) (isProcessing s) v (manualCorrections s) (mode s)
    (objectType s) (showApiKeyInput s) (apiKey s) (autoCount s)
    (manualCountInput s).

Definition setManualCorrections (v : Z) (s : State) : State :=
  mk (detections s) (isProcessing s) (imageSize s) v (mode s)
    (objectType s) (showApiKeyInput s) (apiKey s) (autoCount s)
    (manualCountInput s).

Definition setMode (v : Mode) (s : State) : State :=
  mk (detections s) (isProcessing s) (imageSize s) (manualCorrections s) v
    (objectType s) (showApiKeyInput s) (apiKey s) (autoCount s)
    (manualCountInput s).

Definition setShowApiKeyInput (v : bool) (s : State) : State :=
  mk (detections s) (isProcessing s) (imageSize s) (manualCorrections s)
    (mode s) (objectType s) v (apiKey s) (autoCount s) (manualCountInput s).

Definition setAutoCount (v : option Z) (s : State) : State :=
  mk (detections s) (isProcessing s) (imageSize s) (manualCorrections s)
    (mode s) (objectType s) (showApiKeyInput s) (apiKey s) v
    (manualCountInput s).

Definition setManualCountInput (v : string) (s : State) : State :=
  mk (detections s) (isProcessing s) (imageSize s) (manualCorrections s)
    (mode s) (objectType s) (showApiKeyInput s) (apiKey s) (autoCount s) v.

(** A handler reads the cells of the render it closes over ([s]) and queues
    its updates one after the other; the component renders again before
    the next event is handled, so the next handler closes over the result. *)

Definition handleManualCountChange (text : string) (s : State) : State :=
  let s' := setManualCountInput text s in
  let count := Js.or (Js.parseInt text 0) (Js.ofZ 0) in
  if Js.gt count (Js.ofZ 0)
     && Js.strict_neq count (Js.ofZ (Js.length (detections s)))
  then setManualCorrections 0 (setDetections [] s')
  else s'.

Section Window.

(** [Dimensions.get('window').width]. *)
Variable screenWidth : Js.JsNum.

(** The callback that [setupImage] hands to [Image.getSize]. *)
Definition setupImage_onSize (width height : Js.JsNum) (s : State) : State :=
  let aspectRatio := Js.div width height in
  let displayWidth := screenWidth in
  let displayHeight := Js.div displayWidth aspectRatio in
  setImageSize (mkSize displayWidth displayHeight) s.

(** [event.nativeEvent]. *)
Record PressEvent : Type := mkPress {
  locationX : Js.JsNum;
  locationY : Js.JsNum
}.

Definition handleImagePress (event : PressEvent) (now : Z) (random : string)
    (s : State) : State :=
  match mode s, isProcessing s with
  | Manual, false =>
      let scaleX := Js.div (width (imageSize s)) screenWidth in
      let scaleY := Js.div (height (imageSize s)) (height (imageSize s)) in
      let newDetection :=
        MLService.createManualDetection
          (Js.mul (locationX event) scaleX)
          (Js.mul (locationY event) scaleY)
          MLService.defaultSize now random in
      let s' := setDetections (detections s ++ [newDetection]) s in
      let s' := setManualCorrections (manualCorrections s + 1) s' in
      setManualCountInput (Js.toString (Js.length (detections s) + 1)) s'
  | _, _ => s
  end.

End Window.

Definition removeDetection (id : string) (s : State) : State :=
  let newDetections :=
    filter (fun d => negb (String.eqb (Detection.id d) id)) (detections s) in
  let s' := setDetections newDetections s in
  let s' := setManualCorrections (manualCorrections s + 1) s' in
  match mode s with
  | Manual => setManualCountInput (Js.toString (Js.length newDetections)) s'
  | Auto => s'
  end.

Definition clearAll (s : State) : State :=
  setManualCountInput ""
    (setAutoCount None (setManualCorrections 0 (setDetections [] s))).

Definition switchToManual (s : State) : State := clearAll (setMode Manual s).

(** The component together with the service singleton it calls and the
    alerts shown so far. *)
Record World : Type := mkWorld {
  ui : State;
  ml : MLService.State;
  alerts : list MLService.Alert
}.

Definition processImageWithAI (photoPath : string) (remote : MLService.Remote)
    (w : World) : World :=
  let s := ui w in
  let s' := setDetections [] (setIsProcessing true s) in
  if negb (Js.truthy_string (apiKey s))
  then
    let s' := setIsProcessing false (setShowApiKeyInput true s') in
    (* finally *)
    mkWorld (setIsProcessing false s') (ml w) (alerts w)
  else
    let '(answer, ml', shown) :=
      MLService.detectObjects photoPath (objectType s) remote (ml w) in
    match answer with
    | Js.Ok detectedObjects =>
        let s' := setDetections detectedObjects s' in
        let s' := setAutoCount (Some (Js.length detectedObjects)) s' in
        let shown' :=
          if Js.length detectedObjects =? 0
          then [MLService.mkAlert "No Objects Detected"
                  "Try manual counting mode or adjust the lighting and retake the photo."]
          else [] in
        (* finally *)
        mkWorld (setIsProcessing false s') ml' (alerts w ++ shown ++ shown')
    | Js.Throw _ =>
        let shown' :=
          [MLService.mkAlert "Processing Error"
             "Failed to count objects. Please check your API key and try again."] in
        (* finally *)
        mkWorld (setIsProcessing false s') ml' (alerts w ++ shown ++ shown')
    end.

Definition setApiKey (v : string) (s : State) : State :=
  mk (detections s) (isProcessing s) (imageSize s) (manualCorrections s)
    (mode s) (objectType s) (showApiKeyInput s) v (autoCount s)
    (manualCountInput s).

Definition showAlert (title message : string) (w : World) : World :=
  mkWorld (ui w) (ml w) (alerts w ++ [MLService.mkAlert title message]).

Definition loadApiKey (item : StorageService.SettingsItem) (w : World) : World :=
  let settings := StorageService.getSettings item in
  match StorageService.openaiApiKey settings with
  | Some key =>
      if Js.truthy_string key
      then mkWorld (setApiKey key (ui w)) (MLService.setApiKey key (ml w))
             (alerts w)
      else w
  | None => w
  end.

Definition saveApiKey (photoPath : string) (remote : MLService.Remote)
    (item : StorageService.SettingsItem) (w : World)
    : World * StorageService.SettingsItem :=
  let s := ui w in
  if negb (Js.truthy_string (Js.trim (apiKey s)))
  then (showAlert "Error" "Please enter a valid API key" w, item)
  else
    let ml' := MLService.setApiKey (apiKey s) (ml w) in
    let settings := StorageService.getSettings item in
    let item' :=
      StorageService.saveSettings
        (StorageService.mkSettings
           (StorageService.sensitivity settings)
           (StorageService.minObjectSize settings)
           (StorageService.enableHaptics settings)
           (StorageService.enableSound settings)
           (StorageService.autoSave settings)
           (StorageService.theme settings)
           (Some (apiKey s)))
        item in
    let w' := mkWorld (setShowApiKeyInput false s) ml' (alerts w) in
    match mode s with
    | Auto => (processImageWithAI photoPath remote w', item')
    | Manual => (w', item')
    end.

(** The count that [saveCount] resolves. *)
Definition resolvedCount (s : State) : Js.JsNum :=
  match mode s with
  | Manual => Js.or (Js.parseInt (manualCountInput s) 0) (Js.ofZ 0)
  | Auto => Js.ofZ (Js.length (detections s))
  end.

Definition saveCount (sessionId photoPath : string) (now : Z) (date : string)
    (w : World) (st : StorageService.Store) : World * StorageService.Store :=
  let s := ui w in
  let count := resolvedCount s in
  match mode s, Js.strict_eq count (Js.ofZ 0) with
  | Manual, true => (showAlert "Error" "Please enter a count value" w, st)
  | _, _ =>
      match StorageService.addImageToSession sessionId photoPath
              (Js.integerOf count) (detections s) now date st with
      | (Js.Ok _, st') =>
          (showAlert "Count Saved"
             (Js.toString (Js.integerOf count) +++ " " +++ objectType s
              +++ " counted") w,
           st')
      | (Js.Throw _, st') => (showAlert "Error" "Failed to save count" w, st')
      end
  end.

End ReviewScreen.

(* ================================================================== *)
(** ** Vocabulary of the properties *)

Module Spec.
Import StorageService.

(** The sessions in the store, and the store a method leaves behind. *)
Definition sessionsOf (st : Store) : list Session.t :=
  match st with Some sessions => sessions | None => [] end.

Definition lookup (sessionId : string) (st : Store) : option Session.t :=
  find (fun s => String.eqb (Session.id s) sessionId) (sessionsOf st).

(** The sum of [images[i].count] over all [i]. *)
Fixpoint countSum (images : list ImageCount.t) : Z :=
  match images with
  | [] => 0
  | img :: images' => ImageCount.count img + countSum images'
  end.

Definition totalConsistent (s : Session.t) : Prop :=
  Session.totalCount s = countSum (Session.images s).

(** The repository mutations that touch the images of a session. *)
Inductive Mutation : Type :=
| CreateSession (name : string) (objectType : option string)
    (now : Z) (date : string)
| AddImageToSession (sessionId imagePath : string) (count : Z)
    (detections : list Detection.t) (now : Z) (date : string)
| UpdateImageCount (sessionId imageId : string) (newCount corrections : Z)
| RemoveImage (scr : SessionScreen.State) (imageId : string).

Definition storeAfter (m : Mutation) (st : Store) : Store :=
  match m with
  | CreateSession name objectType now date =>
      snd (createSession name objectType now date st)
  | AddImageToSession sessionId imagePath count detections now date =>
      snd (addImageToSession sessionId imagePath count detections now date st)
  | UpdateImageCount sessionId imageId newCount corrections =>
      snd (updateImageCount sessionId imageId newCount corrections st)
  | RemoveImage scr imageId =>
      snd (SessionScreen.deleteImage imageId scr st)
  end.

(** The id of the session whose images the mutation rewrites in [st], when
    it rewrites any. *)
Definition rewrites (m : Mutation) (st : Store) : option string :=
  match m with
  | CreateSession _ _ now _ => Some ("session_" +++ Js.toString now)
  | AddImageToSession sessionId _ _ _ _ _ =>
      match lookup sessionId st with
      | Some _ => Some sessionId
      | None => None
      end
  | UpdateImageCount sessionId imageId _ _ =>
      match lookup sessionId st with
      | Some s =>
          match find (fun img => String.eqb (ImageCount.id img) imageId)
                  (Session.images s) with
          | Some _ => Some sessionId
          | None => None
          end
      | None => None
      end
  | RemoveImage scr _ =>
      match SessionScreen.session scr with
      | Some s =>
          match lookup (Session.id s) st with
          | Some _ => Some (Session.id s)
          | None => None
          end
      | None => None
      end
  end.

(** The session value that a mutation hands to [updateSession]: the given
    images with the total recomputed from them. *)
Definition retotalled (s : Session.t) (images : list ImageCount.t) : Session.t :=
  Session.mk (Session.id s) (Session.name s) (Session.createdAt s) images
    (sumCounts images) (Session.objectType s).

Definition recount (imageId : string) (newCount corrections : Z)
    (images : list ImageCount.t) : list ImageCount.t :=
  update_first (fun img => String.eqb (ImageCount.id img) imageId)
    (fun image =>
       ImageCount.mk (ImageCount.id image) (ImageCount.path image) newCount
         (ImageCount.timestamp image) corrections (ImageCount.detections image))
    images.

Definition without (imageId : string) (images : list ImageCount.t)
    : list ImageCount.t :=
  filter (fun img => negb (String.eqb (ImageCount.id img) imageId)) images.

(** A text made of lines, each ended by a line feed. *)
Definition newline : string := String "010" "".

Fixpoint unlines (lines : list string) : string :=
  match lines with
  | [] => ""
  | l :: lines' => l +++ newline +++ unlines lines'
  end.

Definition csvLine (img : ImageCount.t) : string :=
  ImageCount.id img +++ "," +++ Js.toString (ImageCount.count img) +++ ","
  +++ ImageCount.timestamp img +++ ","
  +++ Js.toString (ImageCount.corrections img).

Definition csvLines (s : Session.t) : list string :=
  ["Image ID,Count,Timestamp,Corrections"]
  ++ map csvLine (Session.images s)
  ++ [""; "Total Count:," +++ Js.toString (Session.totalCount s)].

(** The centre of a bounding box. *)
Definition centreX (b : BoundingBox.t) : Js.JsNum :=
  Js.add (BoundingBox.x b) (Js.div (BoundingBox.width b) (Js.ofZ 2)).

Definition centreY (b : BoundingBox.t) : Js.JsNum :=
  Js.add (BoundingBox.y b) (Js.div (BoundingBox.height b) (Js.ofZ 2)).

(** The ways a detection request can fail: no credential in the screen or
    in the service, no image file, an unreadable file, a rejected request,
    a response that is not ok. *)
Definition requestFails (w : ReviewScreen.World) (remote : MLService.Remote)
    : Prop :=
  ReviewScreen.apiKey (ReviewScreen.ui w) = ""
  \/ MLService.apiKey (ReviewScreen.ml w) = ""
  \/ MLService.fileExists remote = false
  \/ (exists e, MLService.readAsBase64 remote = Js.Throw e)
  \/ (exists message, MLService.completion remote = MLService.Rejected message)
  \/ (exists message, MLService.completion remote = MLService.NotOk message).

(** The detection a tap creates in the state [s]. *)
Definition tapped (screenWidth : Js.JsNum) (event : ReviewScreen.PressEvent) (now : Z) (random : string)
    (s : ReviewScreen.State) : Detection.t :=
  MLService.createManualDetection
    (Js.mul (ReviewScreen.locationX event)
       (Js.div (ReviewScreen.width (ReviewScreen.imageSize s)) screenWidth))
    (Js.mul (ReviewScreen.locationY event)
       (Js.div (ReviewScreen.height (ReviewScreen.imageSize s))
          (ReviewScreen.height (ReviewScreen.imageSize s))))
    MLService.defaultSize now random.

(** The indices [start, start + 1, ...], [k] of them. *)
Fixpoint range (start : Z) (k : nat) : list Z :=
  match k with
  | O => []
  | S k' => start :: range (start + 1) k'
  end.

(** Placeholder [i] of a grid of [cols] columns filled row by row: it sits
    in row [i / cols], column [i mod cols], in a cell of 60 by 60 at 50 plus
    100 per column and per row. *)
Definition placeholderAt (cols i : Z) : Detection.t :=
  Detection.mk
    ("obj_" +++ Js.toString i)
    (BoundingBox.mk
       (Js.ofZ (50 + 100 * (i mod cols)))
       (Js.ofZ (50 + 100 * (i / cols)))
       (Js.ofZ 60)
       (Js.ofZ 60))
    (Js.ofZ 1)
    (Some "object")
    (Some false).

(** The placeholders of a count whose ceiling is [n]. *)
Definition grid (n : Z) : list Detection.t :=
  map (placeholderAt (Js.ceil_sqrt n)) (range 0 (Z.to_nat n)).

(** [ceil(n / c)] on integers. *)
Definition ceilDiv (n c : Z) : Z := - ((- n) / c).

(** Sample values. *)

Definition shelf : Session.t :=
  Session.mk "session_1700000000000" "Shelf" "2023-11-14T22:13:20.000Z"
    [ImageCount.mk "img_1700000001000" "file:///a.jpg" 5
       "2023-11-14T22:13:21.000Z" 0 [];
     ImageCount.mk "img_1700000002000" "file:///b.jpg" 3
       "2023-11-14T22:13:22.000Z" 1 []]
    8 None.

Definition stray : Session.t :=
  Session.mk "session_42" "Stray" "2023-11-14T22:13:20.000Z" [] 7 None.


Definition tap (x y : Z) : ReviewScreen.PressEvent :=
  ReviewScreen.mkPress (Js.ofZ x) (Js.ofZ y).

(** A review in Manual mode with two tapped objects. *)
Definition twoTaps : ReviewScreen.State :=
  ReviewScreen.handleImagePress (Js.ofZ 390) (tap 200 120) 1700000000002 "0.25"
    (ReviewScreen.handleImagePress (Js.ofZ 390) (tap 100 80) 1700000000001 "0.75"
       (ReviewScreen.setupImage_onSize (Js.ofZ 390) (Js.ofZ 3000) (Js.ofZ 4000)
          ReviewScreen.initialState)).


(** A review with two detections and a credential, and a service that has
    the same credential. *)
Definition keyed : ReviewScreen.World :=
  ReviewScreen.mkWorld
    (ReviewScreen.mk (ReviewScreen.detections twoTaps) false
       (ReviewScreen.imageSize twoTaps) 2 ReviewScreen.Auto "objects" false
       "sk-test" None "2")
    (MLService.mk true "sk-test")
    [].

Definition offline : MLService.Remote :=
  MLService.mkRemote true (Js.Ok "aGVsbG8=")
    (MLService.Rejected "Network request failed").

Definition answers (content : string) : MLService.Remote :=
  MLService.mkRemote true (Js.Ok "aGVsbG8=") (MLService.Content content).

End Spec.

(* ================================================================== *)
(** ** Vocabulary of the further properties *)

Module Extra.

(** What the user does to the detection list in a review. *)
Inductive Edit : Type :=
| Tap (event : ReviewScreen.PressEvent) (now : Z) (random : string)
| Remove (id : string).

Definition edit (screenWidth : Js.JsNum) (e : Edit) (s : ReviewScreen.State)
    : ReviewScreen.State :=
  match e with
  | Tap event now random =>
      ReviewScreen.handleImagePress screenWidth event now random s
  | Remove id => ReviewScreen.removeDetection id s
  end.

(** The edits applied one after the other, the first of the list first. *)
Definition edits (screenWidth : Js.JsNum) (es : list Edit)
    (s : ReviewScreen.State) : ReviewScreen.State :=
  fold_left (fun s e => edit screenWidth e s) es s.

(** The characters left once the leading white space is dropped. *)
Fixpoint dropWhiteSpace (l : list ascii) : list ascii :=
  match l with
  | c :: l' => if Js.isWhiteSpace c then dropWhiteSpace l' else l
  | [] => []
  end.

(** White space at neither end. *)
Definition trimmed (s : string) : Prop :=
  match list_ascii_of_string s with
  | [] => True
  | c :: _ =>
      Js.isWhiteSpace c = false
      /\ Js.isWhiteSpace (List.last (list_ascii_of_string s) c) = false
  end.

(** The image that [addImageToSession] appends. *)
Definition newImage (imagePath : string) (count : Z)
    (detections : list Detection.t) (now : Z) (date : string) : ImageCount.t :=
  ImageCount.mk ("img_" +++ Js.toString now) imagePath count date 0 detections.

Definition withImages (s : Session.t) (images : list ImageCount.t)
    (total : Z) : Session.t :=
  Session.mk (Session.id s) (Session.name s) (Session.createdAt s) images
    total (Session.objectType s).

(** A service that can reach the detector, and a detector that answers. *)
Definition ready (w : ReviewScreen.World) : Prop :=
  ReviewScreen.apiKey (ReviewScreen.ui w) <> ""
  /\ MLService.apiKey (ReviewScreen.ml w) <> "".

(** What identifies a session apart from its images and their total. *)
Definition header (s : Session.t) : string * string * string * option string :=
  (Session.id s, Session.name s, Session.createdAt s, Session.objectType s).

(** Whether [saveCount] refuses to save: Manual mode with a count of 0. *)
Definition refuses (s : ReviewScreen.State) : bool :=
  match ReviewScreen.mode s with
  | ReviewScreen.Manual => Js.integerOf (ReviewScreen.resolvedCount s) =? 0
  | ReviewScreen.Auto => false
  end.

End Extra.

(* ================================================================== *)
(** * Properties *)

Example parseInt_samples :
  Js.parseInt "12" 10 = Js.ofZ 12 /\
  Js.parseInt "  -7px" 0 = Js.ofZ (-7) /\
  Js.parseInt "0x1A" 0 = Js.ofZ 26 /\
  Js.parseInt "0x1A" 10 = Js.ofZ 0 /\
  Js.parseInt "about 12" 10 = Js.NaN /\
  Js.parseInt "" 0 = Js.NaN /\
  Js.trim "  a b  " = "a b" /\
  Js.match_digits "about 12 or 13" = Some "12" /\
  Js.toString 120 = "120" /\ Js.toString (-5) = "-5" /\ Js.toString 0 = "0".
Proof. repeat split; reflexivity. Qed.

(* ================================================================== *)
(** ** Arrays and the store *)

Import StorageService Spec.

Ltac run_store :=
  unfold updateSession, getSession, getAllSessions, getItem, setItem,
    StorageService.bind, ret, throw in *; simpl in *.

Lemma sumCounts_countSum (images : list ImageCount.t) :
  sumCounts images = countSum images.
Proof.
  unfold sumCounts.
  assert (H : forall l acc,
             fold_left (fun sum img => sum + ImageCount.count img) l acc
             = acc + countSum l).
  { induction l as [|img l IH]; simpl; intros acc; [lia|].
    rewrite IH; lia. }
  rewrite H; lia.
Qed.

Lemma findIndex_none {A} (p : A -> bool) (l : list A) :
  find p l = None -> Js.findIndex p l = -1.
Proof.
  induction l as [|a l IH]; simpl; [reflexivity|].
  destruct (p a); [discriminate|]. intros H. rewrite (IH H). reflexivity.
Qed.

Lemma findIndex_some {A} (p : A -> bool) (l : list A) (a : A) :
  find p l = Some a -> 0 <= Js.findIndex p l.
Proof.
  revert a. induction l as [|b l IH]; simpl; intros a; [discriminate|].
  destruct (p b); [lia|]. intros H. specialize (IH _ H).
  destruct (Js.findIndex p l <? 0) eqn:E; lia.
Qed.

Lemma find_some_true {A} (p : A -> bool) (l : list A) (a : A) :
  find p l = Some a -> p a = true.
Proof. intros H. apply find_some in H. tauto. Qed.

Lemma Forall_assign {A} (P : A -> Prop) (i : Z) (x : A) (l : list A) :
  Forall P l -> P x -> Forall P (Js.assign i x l).
Proof.
  unfold Js.assign. generalize (Z.to_nat i) as n.
  intros n Hl Hx. revert n.
  induction Hl as [|a l Ha Hl IH]; intros [|n]; simpl; auto.
Qed.

Lemma find_assign {A} (p : A -> bool) (x a : A) (l : list A) :
  p x = true -> find p l = Some a ->
  find p (Js.assign (Js.findIndex p l) x l) = Some x.
Proof.
  intros Hx. unfold Js.assign. revert a.
  induction l as [|b l IH]; simpl; intros a; [discriminate|].
  destruct (p b) eqn:Eb.
  - intros _. simpl. rewrite Hx. reflexivity.
  - intros H. pose proof (findIndex_some _ _ _ H) as Hi.
    destruct (Js.findIndex p l <? 0) eqn:E; [lia|].
    replace (Z.to_nat (Js.findIndex p l + 1)) with (S (Z.to_nat (Js.findIndex p l)))
      by lia.
    simpl. rewrite Eb. eapply IH; eassumption.
Qed.

Lemma updateSession_found (session stored : Session.t) (st : Store) :
  lookup (Session.id session) st = Some stored ->
  updateSession session st =
    (Js.Ok tt,
     Some (Js.assign
             (Js.findIndex
                (fun s => String.eqb (Session.id s) (Session.id session))
                (sessionsOf st))
             session (sessionsOf st))).
Proof.
  unfold lookup. intros H. apply findIndex_some in H.
  run_store. fold (sessionsOf st).
  destruct (0 <=? _) eqn:E; [reflexivity|lia].
Qed.

Lemma updateSession_missing (session : Session.t) (st : Store) :
  lookup (Session.id session) st = None ->
  updateSession session st = (Js.Ok tt, st).
Proof.
  unfold lookup. intros H. apply findIndex_none in H.
  run_store. fold (sessionsOf st). rewrite H. reflexivity.
Qed.

Lemma getSession_lookup (sessionId : string) (st : Store) :
  getSession sessionId st = (Js.Ok (lookup sessionId st), st).
Proof. reflexivity. Qed.

Lemma updateSession_preserves (P : Session.t -> Prop) (session : Session.t)
    (st : Store) :
  Forall P (sessionsOf st) -> P session ->
  Forall P (sessionsOf (snd (updateSession session st))).
Proof.
  intros Hst Hs. destruct (lookup (Session.id session) st) eqn:E.
  - rewrite (updateSession_found _ _ _ E). simpl. now apply Forall_assign.
  - rewrite (updateSession_missing _ _ E). exact Hst.
Qed.

Lemma updateSession_lookup (session stored : Session.t) (st : Store) :
  lookup (Session.id session) st = Some stored ->
  lookup (Session.id session) (snd (updateSession session st)) = Some session.
Proof.
  intros E. rewrite (updateSession_found _ _ _ E). simpl.
  unfold lookup in *. simpl.
  eapply find_assign; [apply String.eqb_refl|eassumption].
Qed.

Lemma lookup_id (sessionId : string) (st : Store) (s : Session.t) :
  lookup sessionId st = Some s -> Session.id s = sessionId.
Proof.
  unfold lookup. intros H. apply find_some_true in H.
  now apply String.eqb_eq.
Qed.

(* ================================================================== *)
(** ** The total of a session *)

Lemma retotalled_consistent (s : Session.t) (images : list ImageCount.t) :
  totalConsistent (retotalled s images).
Proof. unfold totalConsistent; simpl. apply sumCounts_countSum. Qed.

Lemma storeAfter_retotalled_preserves (s : Session.t)
    (images : list ImageCount.t) (st : Store) :
  Forall totalConsistent (sessionsOf st) ->
  Forall totalConsistent (sessionsOf (snd (updateSession (retotalled s images) st))).
Proof.
  intros H. apply updateSession_preserves; [exact H|].
  apply retotalled_consistent.
Qed.

Lemma storeAfter_retotalled_lookup (s : Session.t)
    (images : list ImageCount.t) (st : Store) :
  lookup (Session.id s) st <> None ->
  exists s',
    lookup (Session.id s) (snd (updateSession (retotalled s images) st)) = Some s'
    /\ totalConsistent s'.
Proof.
  intros H. destruct (lookup (Session.id s) st) as [stored|] eqn:E; [|congruence].
  exists (retotalled s images). split; [|apply retotalled_consistent].
  exact (updateSession_lookup (retotalled s images) stored st E).
Qed.

Lemma addImageToSession_run (sessionId imagePath : string) (count : Z)
    (detections : list Detection.t) (now : Z) (date : string) (st : Store) :
  addImageToSession sessionId imagePath count detections now date st =
  match lookup sessionId st with
  | Some s =>
      updateSession
        (retotalled s
           (Session.images s ++
            [ImageCount.mk ("img_" +++ Js.toString now) imagePath count date 0
               detections])) st
  | None => (Js.Throw (Js.Error "Session not found"), st)
  end.
Proof.
  unfold addImageToSession, StorageService.bind at 1.
  rewrite getSession_lookup. destruct (lookup sessionId st); reflexivity.
Qed.

Lemma updateImageCount_run (sessionId imageId : string)
    (newCount corrections : Z) (st : Store) :
  updateImageCount sessionId imageId newCount corrections st =
  match lookup sessionId st with
  | Some s =>
      match find (fun img => String.eqb (ImageCount.id img) imageId)
              (Session.images s) with
      | Some _ =>
          updateSession
            (retotalled s (recount imageId newCount corrections (Session.images s)))
            st
      | None => (Js.Ok tt, st)
      end
  | None => (Js.Throw (Js.Error "Session not found"), st)
  end.
Proof.
  unfold updateImageCount, StorageService.bind at 1.
  rewrite getSession_lookup. destruct (lookup sessionId st) as [s|]; [|reflexivity].
  destruct (find _ (Session.images s)); reflexivity.
Qed.

Lemma deleteImage_store (imageId : string) (scr : SessionScreen.State)
    (st : Store) :
  snd (SessionScreen.deleteImage imageId scr st) =
  match SessionScreen.session scr with
  | Some s => snd (updateSession (retotalled s (without imageId (Session.images s))) st)
  | None => st
  end.
Proof.
  unfold SessionScreen.deleteImage.
  destruct (SessionScreen.session scr) as [s|]; [|reflexivity].
  unfold StorageService.bind at 1.
  change (Session.mk (Session.id s) (Session.name s) (Session.createdAt s)
            (filter (fun img => negb (String.eqb (ImageCount.id img) imageId))
               (Session.images s))
            (sumCounts
               (filter (fun img => negb (String.eqb (ImageCount.id img) imageId))
                  (Session.images s)))
            (Session.objectType s))
    with (retotalled s (without imageId (Session.images s))).
  destruct (updateSession _ st) as [[[]|e] st']; reflexivity.
Qed.

(** C1.  Every repository mutation that touches the images of a session
    (createSession, addImageToSession, updateImageCount, image removal)
    keeps [totalCount = sum of images[i].count] for every stored session,
    and the session it rewrites has its total equal to that sum whatever
    the store held before. *)
Theorem totalCount_invariant (m : Mutation) (st : Store) :
  (Forall totalConsistent (sessionsOf st) ->
   Forall totalConsistent (sessionsOf (storeAfter m st)))
  /\
  (forall sessionId, rewrites m st = Some sessionId ->
   exists s, lookup sessionId (storeAfter m st) = Some s /\ totalConsistent s).
Proof.
  destruct m as [name objectType now date
                |sessionId imagePath count detections now date
                |sessionId imageId newCount corrections
                |scr imageId]; cbn [storeAfter rewrites].
  - (* createSession *)
    split.
    + intros H. constructor; [reflexivity|exact H].
    + intros sid Hsid. injection Hsid as <-.
      eexists. split.
      * unfold lookup; simpl. rewrite String.eqb_refl. reflexivity.
      * reflexivity.
  - (* addImageToSession *)
    rewrite addImageToSession_run.
    destruct (lookup sessionId st) as [s|] eqn:E.
    + pose proof (lookup_id _ _ _ E) as Hid.
      split.
      * apply (storeAfter_retotalled_preserves s).
      * intros sid Hsid. injection Hsid as <-. rewrite <- Hid.
        apply (storeAfter_retotalled_lookup s). rewrite Hid, E. discriminate.
    + split; [tauto|discriminate].
  - (* updateImageCount *)
    rewrite updateImageCount_run.
    destruct (lookup sessionId st) as [s|] eqn:E.
    + pose proof (lookup_id _ _ _ E) as Hid.
      destruct (find _ (Session.images s)) as [image|].
      * split.
        -- apply (storeAfter_retotalled_preserves s).
        -- intros sid Hsid. injection Hsid as <-. rewrite <- Hid.
           apply (storeAfter_retotalled_lookup s). rewrite Hid, E. discriminate.
      * split; [tauto|discriminate].
    + split; [tauto|discriminate].
  - (* image removal *)
    rewrite deleteImage_store.
    destruct (SessionScreen.session scr) as [s|].
    + split; [apply (storeAfter_retotalled_preserves s)|].
      intros sid Hsid. destruct (lookup (Session.id s) st) eqn:E; [|discriminate].
      injection Hsid as <-.
      apply (storeAfter_retotalled_lookup s). rewrite E. discriminate.
    + split; [tauto|discriminate].
Qed.

Lemma totalCount_invariant_witness :
  Forall totalConsistent
    (sessionsOf
       (storeAfter
          (AddImageToSession "session_1700000000000" "file:///c.jpg" 4 []
             1700000003000 "2023-11-14T22:13:23.000Z")
          (Some [shelf])))
  /\ exists s,
       lookup "session_1700000000000"
         (storeAfter
            (AddImageToSession "session_1700000000000" "file:///c.jpg" 4 []
               1700000003000 "2023-11-14T22:13:23.000Z")
            (Some [shelf])) = Some s
       /\ totalConsistent s.
Proof.
  destruct (totalCount_invariant
              (AddImageToSession "session_1700000000000" "file:///c.jpg" 4 []
                 1700000003000 "2023-11-14T22:13:23.000Z")
              (Some [shelf])) as [Hall Hone].
  split.
  - apply Hall. repeat constructor.
  - apply Hone. reflexivity.
Defined.

(* ================================================================== *)
(** ** updateSession *)

Lemma assign_findIndex_split {A} (p : A -> bool) (x a : A) (l : list A) :
  find p l = Some a ->
  exists l1 l2,
    l = l1 ++ a :: l2
    /\ (forall b, In b l1 -> p b = false)
    /\ Js.assign (Js.findIndex p l) x l = l1 ++ x :: l2.
Proof.
  unfold Js.assign. revert a.
  induction l as [|b l IH]; simpl; intros a; [discriminate|].
  destruct (p b) eqn:Eb.
  - intros [= <-]. exists [], l. simpl. repeat split. intros ? [].
  - intros H. pose proof (findIndex_some _ _ _ H) as Hi.
    destruct (IH _ H) as (l1 & l2 & -> & Hl1 & Hset).
    exists (b :: l1), l2. split; [reflexivity|]. split.
    + intros c [<-|Hc]; auto.
    + destruct (Js.findIndex p (l1 ++ a :: l2) <? 0) eqn:E; [lia|].
      replace (Z.to_nat (Js.findIndex p (l1 ++ a :: l2) + 1))
        with (S (Z.to_nat (Js.findIndex p (l1 ++ a :: l2)))) by lia.
      simpl. now rewrite Hset.
Qed.

(** C2, as stated, fails: for a session whose id is not in the store,
    [updateSession] resolves normally and writes nothing. *)
Lemma updateSession_missing_id_counterexample :
  lookup (Session.id stray) (Some [shelf]) = None
  /\ updateSession stray (Some [shelf]) = (Js.Ok tt, Some [shelf])
  /\ ~ (exists e, fst (updateSession stray (Some [shelf])) = Js.Throw e).
Proof.
  split; [reflexivity|]. split; [reflexivity|].
  intros [e He]. discriminate He.
Qed.

(** C2, amended.  [updateSession session] never throws.  When no stored
    session has the id of [session] it leaves the store as it is; otherwise
    it replaces the first stored session with that id by [session] as given
    (its [totalCount] included) and keeps every other session in place. *)
Theorem updateSession_replaces_or_ignores (session : Session.t) (st : Store) :
  match lookup (Session.id session) st with
  | None => updateSession session st = (Js.Ok tt, st)
  | Some stored =>
      exists before after,
        sessionsOf st = before ++ stored :: after
        /\ (forall s, In s before -> Session.id s <> Session.id session)
        /\ updateSession session st = (Js.Ok tt, Some (before ++ session :: after))
  end.
Proof.
  destruct (lookup (Session.id session) st) as [stored|] eqn:E.
  - rewrite (updateSession_found _ _ _ E).
    unfold lookup in E.
    destruct (assign_findIndex_split _ session _ _ E) as (l1 & l2 & Hl & Hl1 & Hset).
    exists l1, l2. split; [exact Hl|]. split.
    + intros s Hs Hid. specialize (Hl1 s Hs). simpl in Hl1.
      rewrite Hid, String.eqb_refl in Hl1. discriminate.
    + now rewrite Hset.
  - now apply updateSession_missing.
Qed.

(* ================================================================== *)
(** ** createSession *)

(** C3, as stated, fails: the repository creates a session for a name made
    of blanks and writes it to the store. *)
Lemma createSession_blank_name_counterexample :
  Js.trim "   " = ""
  /\ exists s,
       StorageService.createSession "   " None 1700000000000
         "2023-11-14T22:13:20.000Z" None = (Js.Ok s, Some [s])
       /\ Session.name s = "   ".
Proof.
  split; [reflexivity|]. eexists. split.
  - unfold StorageService.createSession. run_store. reflexivity.
  - reflexivity.
Qed.

(** C3, amended.  [StorageService.createSession] validates nothing: for
    every name it succeeds and puts a fresh session with that name, no
    images and total 0 at the front of the store.  The guard is in the
    New Session screen: for a name that is empty after trimming its
    [createSession] handler shows an alert and leaves the store as it is,
    and otherwise it creates the session under the trimmed name. *)
Theorem createSession_guarded_by_screen :
  (forall name objectType now date st,
     StorageService.createSession name objectType now date st =
     (Js.Ok (Session.mk ("session_" +++ Js.toString now) name date [] 0 objectType),
      Some (Session.mk ("session_" +++ Js.toString now) name date [] 0 objectType
            :: sessionsOf st)))
  /\
  (forall scr now date st,
     Js.trim (NewSessionScreen.sessionName scr) = "" ->
     NewSessionScreen.createSession scr now date st =
     (Js.Ok (NewSessionScreen.Alerted "Please enter a session name"), st))
  /\
  (forall scr now date st,
     Js.trim (NewSessionScreen.sessionName scr) <> "" ->
     exists s,
       NewSessionScreen.createSession scr now date st =
       (Js.Ok (NewSessionScreen.NavigatedToCamera (Session.id s)),
        Some (s :: sessionsOf st))
       /\ Session.name s = Js.trim (NewSessionScreen.sessionName scr)
       /\ Session.images s = []
       /\ Session.totalCount s = 0).
Proof.
  split; [|split].
  - reflexivity.
  - intros scr now date st H. unfold NewSessionScreen.createSession.
    rewrite H. reflexivity.
  - intros scr now date st H. unfold NewSessionScreen.createSession.
    destruct (Js.trim (NewSessionScreen.sessionName scr)) as [|c r] eqn:E;
      [congruence|].
    simpl. eexists. split; [reflexivity|]. simpl. auto.
Qed.

Lemma createSession_guarded_by_screen_witness :
  NewSessionScreen.createSession (NewSessionScreen.mk "   " "apples")
    1700000000000 "2023-11-14T22:13:20.000Z" (Some [shelf]) =
  (Js.Ok (NewSessionScreen.Alerted "Please enter a session name"), Some [shelf])
  /\ exists s,
       NewSessionScreen.createSession (NewSessionScreen.mk " Bolts " "")
         1700000000000 "2023-11-14T22:13:20.000Z" (Some [shelf]) =
       (Js.Ok (NewSessionScreen.NavigatedToCamera (Session.id s)),
        Some (s :: sessionsOf (Some [shelf])))
       /\ Session.name s = Js.trim " Bolts "
       /\ Session.images s = []
       /\ Session.totalCount s = 0.
Proof.
  destruct createSession_guarded_by_screen as (_ & Hblank & Hnamed).
  split.
  - apply Hblank. reflexivity.
  - apply Hnamed. discriminate.
Defined.

(* ================================================================== *)
(** ** CSV export *)

Lemma append_assoc (a b c : string) : (a +++ b) +++ c = a +++ (b +++ c).
Proof. induction a as [|ch a IH]; simpl; [reflexivity|]. now rewrite IH. Qed.

Lemma append_empty_r (a : string) : a +++ "" = a.
Proof. induction a as [|ch a IH]; simpl; [reflexivity|]. now rewrite IH. Qed.

Lemma unlines_app (ls ls' : list string) :
  unlines (ls ++ ls') = unlines ls +++ unlines ls'.
Proof.
  induction ls as [|l ls IH]; simpl; [reflexivity|].
  now rewrite IH, !append_assoc.
Qed.

Lemma csvRow_line (img : ImageCount.t) : csvRow img = csvLine img +++ newline.
Proof. unfold csvRow, csvLine, newline. now rewrite !append_assoc. Qed.

Lemma csv_rows_fold (images : list ImageCount.t) (csv : string) :
  fold_left (fun csv img => csv +++ csvRow img) images csv
  = csv +++ unlines (map csvLine images).
Proof.
  revert csv. induction images as [|img images IH]; simpl; intros csv.
  - now rewrite append_empty_r.
  - now rewrite IH, csvRow_line, !append_assoc.
Qed.

(** C7.  For a stored session [exportSessionAsCSV] returns exactly the
    header line, one line per image in session order (id, count, timestamp,
    corrections), an empty line and the [Total Count:,<totalCount>] line,
    each ended by a line feed; for an id that is not stored it throws
    [Session not found].  The store is not written. *)
Theorem exportSessionAsCSV_lines (sessionId : string) (st : Store) :
  exportSessionAsCSV sessionId st =
  match lookup sessionId st with
  | Some s => (Js.Ok (unlines (csvLines s)), st)
  | None => (Js.Throw (Js.Error "Session not found"), st)
  end.
Proof.
  unfold exportSessionAsCSV, StorageService.bind at 1.
  rewrite getSession_lookup.
  destruct (lookup sessionId st) as [s|]; [|reflexivity].
  unfold ret. f_equal. f_equal.
  rewrite csv_rows_fold. unfold csvLines.
  rewrite !unlines_app. simpl unlines at 1.
  unfold csvHeader, csvTotal, newline. simpl.
  rewrite ?append_assoc, ?append_empty_r. reflexivity.
Qed.

Example exportSessionAsCSV_two_images :
  exportSessionAsCSV "session_1700000000000" (Some [shelf]) =
  (Js.Ok
     (unlines
        ["Image ID,Count,Timestamp,Corrections";
         "img_1700000001000,5,2023-11-14T22:13:21.000Z,0";
         "img_1700000002000,3,2023-11-14T22:13:22.000Z,1";
         "";
         "Total Count:,8"]),
   Some [shelf]).
Proof. reflexivity. Qed.

(* ================================================================== *)
(** ** Numbers that are integers *)

Lemma lt_ofZ (a b : Z) : Js.lt (Js.ofZ a) (Js.ofZ b) = (a <? b).
Proof.
  unfold Js.lt, Js.ofZ, Qle_bool; simpl. rewrite !Z.mul_1_r.
  rewrite Z.ltb_antisym. reflexivity.
Qed.

Lemma strict_eq_ofZ (a b : Z) : Js.strict_eq (Js.ofZ a) (Js.ofZ b) = (a =? b).
Proof.
  unfold Js.strict_eq, Js.ofZ, Qeq_bool; simpl. now rewrite !Z.mul_1_r.
Qed.

Lemma or_ofZ_zero (n : Z) : Js.or (Js.ofZ n) (Js.ofZ 0) = Js.ofZ n.
Proof.
  unfold Js.or, Js.truthy, Js.Qis_zero, Js.ofZ, Qeq_bool; simpl.
  rewrite Z.mul_1_r. destruct (n =? 0) eqn:E; simpl; [|reflexivity].
  apply Z.eqb_eq in E. now subst.
Qed.

Lemma parseInt_cases (text : string) (radix : Z) :
  Js.parseInt text radix = Js.NaN \/ exists n, Js.parseInt text radix = Js.ofZ n.
Proof.
  unfold Js.parseInt.
  destruct (Js.trimStart text) as [|c r]; simpl.
  - destruct ((radix =? 0) || _); [|now left].
    destruct (_ && _); simpl; now left.
  - match goal with
    | |- context [let '(sign, str) := ?p in _] => destruct p as [sign str]
    end.
    destruct ((radix =? 0) || _); [|now left].
    destruct (_ && _);
      match goal with
      | |- context [Js.parseDigits ?R ?t None] =>
          destruct (Js.parseDigits R t None); [right; eauto|now left]
      end.
Qed.

(* ================================================================== *)
(** ** The count read from the response *)

(** The [catch] block around [parseInt] never runs: the count is always the
    direct parse of the response, not-a-number included. *)
Lemma extractCount_parseInt (result : string) :
  MLService.extractCount result = Js.parseInt result 10.
Proof. reflexivity. Qed.

(** C5.  On a response whose digits follow other text the code returns
    not-a-number although the first run of digits is [12], and on a
    response without digits it returns not-a-number, not [0]: [parseInt]
    reports a failed parse by its result, so the fallback in the [catch]
    block is never reached. *)
Theorem extractCount_fallback_unreached :
  Js.match_digits "about 12 apples" = Some "12"
  /\ Js.parseInt "12" 10 = Js.ofZ 12
  /\ MLService.extractCount "about 12 apples" = Js.NaN
  /\ MLService.callOpenAIVision "aGVsbG8=" "apples"
       (MLService.mkRemote true (Js.Ok "aGVsbG8=")
          (MLService.Content "about 12 apples")) = Js.Ok Js.NaN
  /\ Js.match_digits "none" = None
  /\ MLService.extractCount "none" = Js.NaN.
Proof. repeat split; reflexivity. Qed.

(* ================================================================== *)
(** ** Typing a count *)

Lemma handleManualCountChange_input (text : string) (s : ReviewScreen.State) :
  ReviewScreen.manualCountInput (ReviewScreen.handleManualCountChange text s)
  = text.
Proof.
  unfold ReviewScreen.handleManualCountChange.
  destruct (_ && _); reflexivity.
Qed.

Lemma handleManualCountChange_number (text : string) (n : Z)
    (s : ReviewScreen.State) :
  Js.parseInt text 0 = Js.ofZ n ->
  ReviewScreen.handleManualCountChange text s =
  if (0 <? n) && negb (n =? Js.length (ReviewScreen.detections s))
  then ReviewScreen.setManualCorrections 0
         (ReviewScreen.setDetections [] (ReviewScreen.setManualCountInput text s))
  else ReviewScreen.setManualCountInput text s.
Proof.
  intros H. unfold ReviewScreen.handleManualCountChange.
  rewrite H, or_ofZ_zero. unfold Js.gt, Js.strict_neq.
  now rewrite lt_ofZ, strict_eq_ofZ.
Qed.

(** C8, as stated, fails: with two detections, typing the nonzero number
    [-3], which differs from 2, clears nothing. *)
Lemma typed_negative_count_counterexample :
  ReviewScreen.mode twoTaps = ReviewScreen.Manual
  /\ Js.length (ReviewScreen.detections twoTaps) = 2
  /\ ReviewScreen.manualCorrections twoTaps = 2
  /\ Js.parseInt "-3" 0 = Js.ofZ (-3)
  /\ ReviewScreen.detections (ReviewScreen.handleManualCountChange "-3" twoTaps)
     = ReviewScreen.detections twoTaps
  /\ ReviewScreen.manualCorrections
       (ReviewScreen.handleManualCountChange "-3" twoTaps) = 2.
Proof. repeat split; reflexivity. Qed.

(** C8, amended.  Typing a text that parses to a positive number different
    from [detections.length] empties the detection list and resets the
    corrections to 0; typing a number equal to [detections.length], or a
    number that is not positive, or a text that is no number, leaves the
    detection list and the corrections as they are.  The field always
    takes the typed text. *)
Theorem handleManualCountChange_override (text : string)
    (s : ReviewScreen.State) :
  let s' := ReviewScreen.handleManualCountChange text s in
  ReviewScreen.manualCountInput s' = text
  /\ (forall n,
        Js.parseInt text 0 = Js.ofZ n -> 0 < n ->
        n <> Js.length (ReviewScreen.detections s) ->
        ReviewScreen.detections s' = []
        /\ ReviewScreen.manualCorrections s' = 0)
  /\ (forall n,
        Js.parseInt text 0 = Js.ofZ n ->
        n = Js.length (ReviewScreen.detections s) \/ n <= 0 ->
        ReviewScreen.detections s' = ReviewScreen.detections s
        /\ ReviewScreen.manualCorrections s' = ReviewScreen.manualCorrections s)
  /\ (Js.parseInt text 0 = Js.NaN ->
        ReviewScreen.detections s' = ReviewScreen.detections s
        /\ ReviewScreen.manualCorrections s' = ReviewScreen.manualCorrections s).
Proof.
  intros s'. subst s'. split; [apply handleManualCountChange_input|].
  split; [|split].
  - intros n Hn Hpos Hneq. rewrite (handleManualCountChange_number _ _ _ Hn).
    destruct (0 <? n) eqn:E1; [|lia].
    destruct (n =? _) eqn:E2; [lia|]. simpl. auto.
  - intros n Hn Hcase. rewrite (handleManualCountChange_number _ _ _ Hn).
    destruct (0 <? n) eqn:E1; simpl; auto.
    destruct (n =? _) eqn:E2; simpl; auto. lia.
  - intros Hnan. unfold ReviewScreen.handleManualCountChange.
    rewrite Hnan. simpl. auto.
Qed.

Lemma handleManualCountChange_override_witness :
  (ReviewScreen.detections (ReviewScreen.handleManualCountChange "5" twoTaps) = []
   /\ ReviewScreen.manualCorrections
        (ReviewScreen.handleManualCountChange "5" twoTaps) = 0)
  /\ (ReviewScreen.detections (ReviewScreen.handleManualCountChange "2" twoTaps)
      = ReviewScreen.detections twoTaps
      /\ ReviewScreen.manualCorrections
           (ReviewScreen.handleManualCountChange "2" twoTaps)
         = ReviewScreen.manualCorrections twoTaps)
  /\ (ReviewScreen.detections (ReviewScreen.handleManualCountChange "x" twoTaps)
      = ReviewScreen.detections twoTaps
      /\ ReviewScreen.manualCorrections
           (ReviewScreen.handleManualCountChange "x" twoTaps)
         = ReviewScreen.manualCorrections twoTaps).
Proof.
  split; [|split].
  - destruct (handleManualCountChange_override "5" twoTaps) as (_ & H & _).
    apply (H 5); [reflexivity|lia|vm_compute; discriminate].
  - destruct (handleManualCountChange_override "2" twoTaps) as (_ & _ & H & _).
    apply (H 2); [reflexivity|left; reflexivity].
  - destruct (handleManualCountChange_override "x" twoTaps) as (_ & _ & _ & H).
    apply H. reflexivity.
Defined.

(* ================================================================== *)
(** ** Tapping and removing in Manual mode *)

Section ManualTaps.

Variable screenWidth : Js.JsNum.

Local Abbreviation press := (ReviewScreen.handleImagePress screenWidth).
Local Abbreviation tapped := (Spec.tapped screenWidth).

Lemma handleImagePress_manual event now random (s : ReviewScreen.State) :
  ReviewScreen.mode s = ReviewScreen.Manual ->
  ReviewScreen.isProcessing s = false ->
  press event now random s =
  ReviewScreen.mk
    (ReviewScreen.detections s ++ [tapped event now random s])
    false (ReviewScreen.imageSize s) (ReviewScreen.manualCorrections s + 1)
    ReviewScreen.Manual (ReviewScreen.objectType s)
    (ReviewScreen.showApiKeyInput s) (ReviewScreen.apiKey s)
    (ReviewScreen.autoCount s)
    (Js.toString (Js.length (ReviewScreen.detections s) + 1)).
Proof.
  intros Hm Hp. unfold press, ReviewScreen.handleImagePress.
  rewrite Hm, Hp. unfold ReviewScreen.setManualCountInput,
    ReviewScreen.setManualCorrections, ReviewScreen.setDetections; simpl.
  rewrite Hm, Hp. reflexivity.
Qed.

Lemma length_snoc {A} (l : list A) (a : A) : Js.length (l ++ [a]) = Js.length l + 1.
Proof. unfold Js.length. rewrite length_app; simpl. lia. Qed.

Lemma Qis_zero_false (q : Q) : ~ (q == 0)%Q -> Js.Qis_zero q = false.
Proof.
  intros H. unfold Js.Qis_zero. destruct (Qeq_bool q 0) eqn:E; [|reflexivity].
  apply Qeq_bool_eq in E. contradiction.
Qed.

Lemma tapped_centre (lx ly w h : Q) now random (s : ReviewScreen.State) :
  screenWidth = Js.Fin w ->
  ReviewScreen.imageSize s = ReviewScreen.mkSize (Js.Fin w) (Js.Fin h) ->
  ~ (w == 0)%Q -> ~ (h == 0)%Q ->
  let d := tapped (ReviewScreen.mkPress (Js.Fin lx) (Js.Fin ly)) now random s in
  Js.eqv (centreX (Detection.bbox d)) (Js.Fin lx)
  /\ Js.eqv (centreY (Detection.bbox d)) (Js.Fin ly).
Proof.
  intros Hsw Hsize Hw Hh. unfold tapped. rewrite Hsw, Hsize.
  unfold centreX, centreY, MLService.createManualDetection,
    MLService.defaultSize; simpl.
  rewrite (Qis_zero_false w Hw), (Qis_zero_false h Hh). simpl.
  split; field; assumption.
Qed.

Lemma filter_out_unique (l1 l2 : list Detection.t) (d : Detection.t) :
  NoDup (map Detection.id (l1 ++ d :: l2)) ->
  filter (fun e => negb (String.eqb (Detection.id e) (Detection.id d)))
    (l1 ++ d :: l2) = l1 ++ l2.
Proof.
  rewrite map_app; simpl. intros H.
  pose proof (NoDup_remove_2 _ _ _ H) as Hnot.
  assert (Hkeep : forall l,
             ~ In (Detection.id d) (map Detection.id l) ->
             filter (fun e => negb (String.eqb (Detection.id e) (Detection.id d))) l
             = l).
  { induction l as [|e l IH]; simpl; intros Hl; [reflexivity|].
    destruct (String.eqb_spec (Detection.id e) (Detection.id d)) as [Heq|Hneq].
    - exfalso. apply Hl. now left.
    - simpl. f_equal. apply IH. intros Hin. apply Hl. now right. }
  rewrite filter_app; simpl. rewrite String.eqb_refl; simpl.
  rewrite !Hkeep; [reflexivity| |];
    intros Hin; apply Hnot, in_or_app; [right|left]; exact Hin.
Qed.

Lemma removeDetection_manual (l1 l2 : list Detection.t) (d : Detection.t)
    (s : ReviewScreen.State) :
  ReviewScreen.mode s = ReviewScreen.Manual ->
  ReviewScreen.detections s = l1 ++ d :: l2 ->
  NoDup (map Detection.id (ReviewScreen.detections s)) ->
  let s' := ReviewScreen.removeDetection (Detection.id d) s in
  ReviewScreen.detections s' = l1 ++ l2
  /\ ReviewScreen.manualCorrections s' = ReviewScreen.manualCorrections s + 1
  /\ ReviewScreen.manualCountInput s'
     = Js.toString (Js.length (ReviewScreen.detections s')).
Proof.
  intros Hm Hd Hnd. unfold ReviewScreen.removeDetection.
  rewrite Hm, Hd in *. rewrite (filter_out_unique _ _ _ Hnd). simpl. auto.
Qed.

(** C9.  In Manual mode (and outside a pending request) a tap appends
    exactly one manual detection of the default size 40 by 40 and adds 1 to
    the corrections; once the image has been laid out the detection is
    centred at the tapped point.  Removing a detection of a list with
    distinct ids deletes exactly that detection and adds 1 to the
    corrections.  After either, the count field shows [detections.length].
    From an empty review, three taps and one removal leave two detections,
    the field ["2"] and 4 corrections. *)
Theorem manual_add_remove :
  (forall event now random s,
     ReviewScreen.mode s = ReviewScreen.Manual ->
     ReviewScreen.isProcessing s = false ->
     let s' := press event now random s in
     let d := tapped event now random s in
     ReviewScreen.detections s' = ReviewScreen.detections s ++ [d]
     /\ Detection.manual d = Some true
     /\ BoundingBox.width (Detection.bbox d) = Js.ofZ 40
     /\ BoundingBox.height (Detection.bbox d) = Js.ofZ 40
     /\ ReviewScreen.manualCorrections s' = ReviewScreen.manualCorrections s + 1
     /\ ReviewScreen.manualCountInput s'
        = Js.toString (Js.length (ReviewScreen.detections s'))
     /\ ReviewScreen.mode s' = ReviewScreen.Manual)
  /\
  (forall lx ly w h now random s,
     screenWidth = Js.Fin w ->
     ReviewScreen.imageSize s = ReviewScreen.mkSize (Js.Fin w) (Js.Fin h) ->
     ~ (w == 0)%Q -> ~ (h == 0)%Q ->
     let d := tapped (ReviewScreen.mkPress (Js.Fin lx) (Js.Fin ly)) now random s in
     Js.eqv (centreX (Detection.bbox d)) (Js.Fin lx)
     /\ Js.eqv (centreY (Detection.bbox d)) (Js.Fin ly))
  /\
  (forall l1 l2 d s,
     ReviewScreen.mode s = ReviewScreen.Manual ->
     ReviewScreen.detections s = l1 ++ d :: l2 ->
     NoDup (map Detection.id (ReviewScreen.detections s)) ->
     let s' := ReviewScreen.removeDetection (Detection.id d) s in
     ReviewScreen.detections s' = l1 ++ l2
     /\ ReviewScreen.manualCorrections s' = ReviewScreen.manualCorrections s + 1
     /\ ReviewScreen.manualCountInput s'
        = Js.toString (Js.length (ReviewScreen.detections s')))
  /\
  (forall e1 e2 e3 n1 n2 n3 r1 r2 r3 s0 victim,
     ReviewScreen.mode s0 = ReviewScreen.Manual ->
     ReviewScreen.isProcessing s0 = false ->
     ReviewScreen.detections s0 = [] ->
     ReviewScreen.manualCorrections s0 = 0 ->
     let s3 := press e3 n3 r3 (press e2 n2 r2 (press e1 n1 r1 s0)) in
     NoDup (map Detection.id (ReviewScreen.detections s3)) ->
     In victim (ReviewScreen.detections s3) ->
     let s4 := ReviewScreen.removeDetection (Detection.id victim) s3 in
     Js.length (ReviewScreen.detections s4) = 2
     /\ ReviewScreen.manualCountInput s4 = "2"
     /\ ReviewScreen.manualCorrections s4 = 4).
Proof.
  split; [|split; [|split]].
  - intros event now random s Hm Hp s' d. subst s' d.
    rewrite (handleImagePress_manual _ _ _ _ Hm Hp); simpl.
    rewrite length_snoc. repeat split; reflexivity.
  - intros lx ly w h now random s Hsw Hsize Hw Hh.
    exact (tapped_centre lx ly w h now random s Hsw Hsize Hw Hh).
  - intros l1 l2 d s Hm Hd Hnd.
    exact (removeDetection_manual l1 l2 d s Hm Hd Hnd).
  - intros e1 e2 e3 n1 n2 n3 r1 r2 r3 s0 victim Hm Hp Hd Hc s3 Hnd Hin s4.
    assert (H3 : ReviewScreen.mode s3 = ReviewScreen.Manual
                 /\ Js.length (ReviewScreen.detections s3) = 3
                 /\ ReviewScreen.manualCorrections s3 = 3).
    { subst s3.
      rewrite (handleImagePress_manual e1 n1 r1 s0 Hm Hp).
      rewrite handleImagePress_manual by reflexivity.
      rewrite handleImagePress_manual by reflexivity.
      simpl. rewrite Hd, Hc. repeat split. }
    destruct H3 as (Hm3 & Hl3 & Hc3).
    destruct (in_split _ _ Hin) as (l1 & l2 & Hsplit).
    destruct (removeDetection_manual l1 l2 victim s3 Hm3 Hsplit Hnd)
      as (Hdets & Hcorr & Hinput).
    fold s4 in Hdets, Hcorr, Hinput.
    assert (Hlen : Js.length (ReviewScreen.detections s4) = 2).
    { rewrite Hdets. rewrite Hsplit in Hl3. unfold Js.length in *.
      rewrite length_app in *. simpl in Hl3. lia. }
    split; [exact Hlen|]. split.
    + rewrite Hinput, Hlen. reflexivity.
    + rewrite Hcorr, Hc3. reflexivity.
Qed.

End ManualTaps.

Lemma manual_add_remove_witness :
  let s3 :=
    ReviewScreen.handleImagePress (Js.ofZ 390) (tap 50 60) 1700000000003 "0.5"
      twoTaps in
  let s4 := ReviewScreen.removeDetection "manual_1700000000002_0.25" s3 in
  Js.length (ReviewScreen.detections s4) = 2
  /\ ReviewScreen.manualCountInput s4 = "2"
  /\ ReviewScreen.manualCorrections s4 = 4.
Proof.
  destruct (manual_add_remove (Js.ofZ 390)) as (_ & _ & _ & H).
  refine (H (tap 100 80) (tap 200 120) (tap 50 60)
            1700000000001 1700000000002 1700000000003 "0.75" "0.25" "0.5"
            (ReviewScreen.setupImage_onSize (Js.ofZ 390) (Js.ofZ 3000)
               (Js.ofZ 4000) ReviewScreen.initialState)
            (Spec.tapped (Js.ofZ 390) (tap 200 120) 1700000000002 "0.25"
               (ReviewScreen.setupImage_onSize (Js.ofZ 390) (Js.ofZ 3000)
                  (Js.ofZ 4000) ReviewScreen.initialState))
            _ _ _ _ _ _).
  - reflexivity.
  - reflexivity.
  - reflexivity.
  - reflexivity.
  - vm_compute. repeat constructor; simpl; intuition discriminate.
  - vm_compute. right. left. reflexivity.
Defined.

(* ================================================================== *)
(** ** A detection request that fails *)

Lemma truthy_string_empty (s : string) :
  Js.truthy_string s = false <-> s = "".
Proof. destruct s; simpl; split; congruence. Qed.

(** The service turns every failure into an alert of its own and the empty
    list. *)
Lemma detectObjects_failure (imagePath objectType : string)
    (remote : MLService.Remote) (ml : MLService.State) :
  MLService.apiKey ml = ""
  \/ MLService.fileExists remote = false
  \/ (exists e, MLService.readAsBase64 remote = Js.Throw e)
  \/ (exists message, MLService.completion remote = MLService.Rejected message)
  \/ (exists message, MLService.completion remote = MLService.NotOk message) ->
  exists a,
    MLService.detectObjects imagePath objectType remote ml
    = (Js.Ok [], MLService.mk true (MLService.apiKey ml), [a])
    /\ (MLService.title a = "API Key Required"
        \/ MLService.title a = "Detection Error").
Proof.
  intros H. unfold MLService.detectObjects.
  assert (Hml : (if negb (MLService.isReady ml) then MLService.initialize ml else ml)
                = MLService.mk true (MLService.apiKey ml)).
  { destruct ml as [[|] key]; reflexivity. }
  rewrite Hml; simpl.
  destruct (Js.truthy_string (MLService.apiKey ml)) eqn:Ekey; simpl.
  - exists (MLService.mkAlert "Detection Error"
              "Failed to count objects. Please try again.").
    split; [|right; reflexivity].
    destruct H as [H|[H|[[e H]|[[msg H]|[msg H]]]]].
    + apply truthy_string_empty in H. congruence.
    + rewrite H. reflexivity.
    + rewrite H. destruct (MLService.fileExists remote); reflexivity.
    + unfold MLService.callOpenAIVision. rewrite H.
      destruct (MLService.fileExists remote); simpl; [|reflexivity].
      destruct (MLService.readAsBase64 remote); reflexivity.
    + unfold MLService.callOpenAIVision. rewrite H.
      destruct (MLService.fileExists remote); simpl; [|reflexivity].
      destruct (MLService.readAsBase64 remote); reflexivity.
  - exists (MLService.mkAlert "API Key Required"
              "Please set your OpenAI API key in the app settings.").
    split; [reflexivity|left; reflexivity].
Qed.

(** C4, as stated, fails: a request that the network rejects empties the
    two detections of the review, and leaves the review exactly as a
    response of [0] does, the "No Objects Detected" alert included. *)
Lemma failed_request_counterexample :
  requestFails keyed offline
  /\ Js.length (ReviewScreen.detections (ReviewScreen.ui keyed)) = 2
  /\ ReviewScreen.detections
       (ReviewScreen.ui (ReviewScreen.processImageWithAI "file:///a.jpg" offline keyed))
     = []
  /\ ReviewScreen.ui (ReviewScreen.processImageWithAI "file:///a.jpg" offline keyed)
     = ReviewScreen.ui
         (ReviewScreen.processImageWithAI "file:///a.jpg" (answers "0") keyed)
  /\ map MLService.title
       (ReviewScreen.alerts
          (ReviewScreen.processImageWithAI "file:///a.jpg" offline keyed))
     = ["Detection Error"; "No Objects Detected"].
Proof.
  split.
  - do 4 right. left. eexists. reflexivity.
  - repeat split; reflexivity.
Qed.

(** C4, amended.  Whenever the detector request fails (missing credential,
    missing or unreadable image, network or API error) the request ends
    with the mode, the corrections and the count field unchanged, the
    detection list empty (it is emptied when the request starts) and the
    busy flag off.  Without a credential in the screen the credential
    prompt is opened and no alert is shown; otherwise the service shows an
    alert of its own, "API Key Required" or "Detection Error". *)
Theorem failed_request_state (photoPath : string) (remote : MLService.Remote)
    (w : ReviewScreen.World) :
  requestFails w remote ->
  let w' := ReviewScreen.processImageWithAI photoPath remote w in
  ReviewScreen.mode (ReviewScreen.ui w') = ReviewScreen.mode (ReviewScreen.ui w)
  /\ ReviewScreen.detections (ReviewScreen.ui w') = []
  /\ ReviewScreen.isProcessing (ReviewScreen.ui w') = false
  /\ ReviewScreen.manualCorrections (ReviewScreen.ui w')
     = ReviewScreen.manualCorrections (ReviewScreen.ui w)
  /\ ReviewScreen.manualCountInput (ReviewScreen.ui w')
     = ReviewScreen.manualCountInput (ReviewScreen.ui w)
  /\ (ReviewScreen.apiKey (ReviewScreen.ui w) = "" ->
      ReviewScreen.showApiKeyInput (ReviewScreen.ui w') = true
      /\ ReviewScreen.alerts w' = ReviewScreen.alerts w)
  /\ (ReviewScreen.apiKey (ReviewScreen.ui w) <> "" ->
      exists a rest,
        ReviewScreen.alerts w' = ReviewScreen.alerts w ++ a :: rest
        /\ (MLService.title a = "API Key Required"
            \/ MLService.title a = "Detection Error")).
Proof.
  intros Hfail w'. subst w'. unfold ReviewScreen.processImageWithAI.
  destruct (Js.truthy_string (ReviewScreen.apiKey (ReviewScreen.ui w))) eqn:Ekey;
    simpl.
  - assert (Hkey : ReviewScreen.apiKey (ReviewScreen.ui w) <> "").
    { intros Hk. apply truthy_string_empty in Hk. congruence. }
    destruct Hfail as [Hfail|Hfail]; [contradiction|].
    destruct (detectObjects_failure photoPath
                (ReviewScreen.objectType (ReviewScreen.ui w)) remote
                (ReviewScreen.ml w) Hfail) as (a & Hdetect & Htitle).
    rewrite Hdetect. simpl.
    repeat split; try reflexivity; try contradiction.
    intros _. eexists. eexists. split; [reflexivity|exact Htitle].
  - apply truthy_string_empty in Ekey.
    repeat split; try reflexivity. intros Hk. contradiction.
Qed.

Lemma failed_request_state_witness :
  let w' := ReviewScreen.processImageWithAI "file:///a.jpg" offline keyed in
  ReviewScreen.mode (ReviewScreen.ui w') = ReviewScreen.Auto
  /\ ReviewScreen.detections (ReviewScreen.ui w') = []
  /\ ReviewScreen.isProcessing (ReviewScreen.ui w') = false.
Proof.
  destruct (failed_request_state "file:///a.jpg" offline keyed)
    as (Hmode & Hdets & Hbusy & _).
  - do 4 right. left. exists "Network request failed". reflexivity.
  - repeat split; assumption.
Defined.

(* ================================================================== *)
(** ** The placeholder grid *)

Lemma add_ofZ (a b : Z) : Js.add (Js.ofZ a) (Js.ofZ b) = Js.ofZ (a + b).
Proof.
  unfold Js.add, Js.ofZ, inject_Z, Qplus; simpl.
  now rewrite !Z.mul_1_r.
Qed.

Lemma mul_ofZ (a b : Z) : Js.mul (Js.ofZ a) (Js.ofZ b) = Js.ofZ (a * b).
Proof. reflexivity. Qed.

Lemma placeholder_cell_at (cols row col index : Z) :
  0 <= col < cols -> index = row * cols + col ->
  MLService.placeholder_cell row col index = placeholderAt cols index.
Proof.
  intros Hcol ->. unfold MLService.placeholder_cell, placeholderAt.
  rewrite !mul_ofZ, !add_ofZ.
  rewrite <- (Z.mod_unique (row * cols + col) cols row col) by lia.
  rewrite <- (Z.div_unique (row * cols + col) cols row col) by lia.
  now rewrite (Z.mul_comm col 100), (Z.mul_comm row 100).
Qed.

Lemma range_app (start : Z) (a b : nat) :
  range start (a + b) = range start a ++ range (start + Z.of_nat a) b.
Proof.
  revert start. induction a as [|a IH]; intros start; simpl range.
  - now rewrite Z.add_0_r.
  - rewrite IH. simpl. do 3 f_equal. lia.
Qed.

Lemma range_length (start : Z) (k : nat) : List.length (range start k) = k.
Proof. revert start. induction k; simpl; auto. Qed.

Lemma range_nth (start : Z) (k i : nat) :
  (i < k)%nat -> nth_error (range start k) i = Some (start + Z.of_nat i).
Proof.
  revert start i. induction k as [|k IH]; intros start [|i] H; simpl; try lia.
  - f_equal. lia.
  - rewrite IH by lia. f_equal. lia.
Qed.

(** The two loops, for a count whose tests against an integer index agree
    with those of the integer [n], a grid of [c >= 1] columns, and a row
    bound that lets row [r] in exactly when [r * c < n]. *)
Section Loops.

Variables (count rows : Js.JsNum) (n c : Z).

Hypothesis count_test : forall i, Js.lt (Js.ofZ i) count = (i <? n).
Hypothesis rows_test :
  forall row, 0 <= row -> Js.lt (Js.ofZ row) rows = (row * c <? n).
Hypothesis c_pos : 1 <= c.

Lemma colLoop_run (k : nat) :
  forall (fuel : nat) (row col index : Z) (detections : list Detection.t),
    (k < fuel)%nat -> 0 <= col -> index = row * c + col ->
    Z.of_nat k = Z.min (c - col) (n - index) ->
    MLService.colLoop fuel (Js.ofZ c) count row col index detections
    = Some (index + Z.of_nat k,
            detections ++ map (placeholderAt c) (range index k)).
Proof.
  induction k as [|k IH]; intros fuel row col index detections Hfuel Hcol Hindex Hk;
    (destruct fuel as [|fuel]; [lia|]); cbn [MLService.colLoop];
    rewrite lt_ofZ, count_test.
  - replace ((col <? c) && (index <? n)) with false
      by (symmetry; apply andb_false_iff; rewrite !Z.ltb_ge; lia).
    simpl. now rewrite Z.add_0_r, app_nil_r.
  - replace ((col <? c) && (index <? n)) with true
      by (symmetry; apply andb_true_iff; rewrite !Z.ltb_lt; lia).
    rewrite (IH fuel row (col + 1) (index + 1)) by lia.
    rewrite (placeholder_cell_at c row col index) by lia.
    simpl. rewrite <- app_assoc. simpl. do 2 f_equal. lia.
Qed.

Lemma rowLoop_run (colFuel : nat) :
  (Z.to_nat n < colFuel)%nat ->
  forall (fuel : nat) (row index : Z) (detections : list Detection.t),
    (Z.to_nat (n - index) < fuel)%nat -> 0 <= row -> 0 <= index ->
    index = n \/ (index = row * c /\ index < n) ->
    MLService.rowLoop fuel colFuel rows (Js.ofZ c) count row index detections
    = Some (detections
            ++ map (placeholderAt c) (range index (Z.to_nat (n - index)))).
Proof.
  intros HcolFuel.
  induction fuel as [|fuel IH]; intros row index detections Hfuel Hrow Hidx Hinv;
    [lia|].
  cbn [MLService.rowLoop]. rewrite count_test, rows_test by assumption.
  destruct Hinv as [->|[Hindex Hlt]].
  - rewrite Z.ltb_irrefl, andb_false_r, Z.sub_diag. simpl.
    now rewrite app_nil_r.
  - replace ((row * c <? n) && (index <? n)) with true
      by (symmetry; apply andb_true_iff; rewrite !Z.ltb_lt; lia).
    set (k := Z.to_nat (Z.min c (n - index))).
    rewrite (colLoop_run k colFuel row 0 index detections) by (subst k; lia).
    rewrite IH by (subst k; lia).
    replace (Z.to_nat (n - index))
      with (k + Z.to_nat (n - (index + Z.of_nat k)))%nat by (subst k; lia).
    now rewrite range_app, map_app, app_assoc.
Qed.

End Loops.

Lemma lt_ofZ_Fin (i : Z) (q : Q) :
  Js.lt (Js.ofZ i) (Js.Fin q) = (i <? Qceiling q).
Proof.
  unfold Js.lt, Js.ofZ.
  destruct (Z.ltb_spec i (Qceiling q)) as [Hlt|Hge];
    destruct (Qle_bool q (inject_Z i)) eqn:E; try reflexivity; exfalso.
  - apply Qle_bool_iff in E.
    pose proof (Qceiling_lt q) as Hc.
    pose proof (Qlt_le_trans _ _ _ Hc E) as Hi.
    rewrite <- Zlt_Qlt in Hi. lia.
  - assert (Hq : (q <= inject_Z i)%Q).
    { apply Qle_trans with (inject_Z (Qceiling q)); [apply Qle_ceiling|].
      now rewrite <- Zle_Qle. }
    apply Qle_bool_iff in Hq. congruence.
Qed.

Lemma Qle_div_int (q : Q) (row c : Z) :
  0 < c ->
  Qle_bool (q / inject_Z c) (inject_Z row) = Qle_bool q (inject_Z (row * c)).
Proof.
  intros Hc.
  assert (HcQ : (0 < inject_Z c)%Q).
  { change (inject_Z 0 < inject_Z c)%Q. now rewrite <- Zlt_Qlt. }
  assert (Hne : ~ (inject_Z c == 0)%Q).
  { intros H. rewrite H in HcQ. now apply Qlt_irrefl in HcQ. }
  apply eq_true_iff_eq. rewrite !Qle_bool_iff, inject_Z_mult. split; intros H.
  - rewrite <- (Qmult_div_r q (inject_Z c) Hne), (Qmult_comm (inject_Z c)).
    apply Qmult_le_compat_r; [exact H|now apply Qlt_le_weak].
  - now apply Qle_shift_div_r.
Qed.

Lemma rows_test_Fin (q : Q) (row c : Z) :
  1 <= c ->
  Js.lt (Js.ofZ row) (Js.Math_ceil (Js.div (Js.Fin q) (Js.ofZ c)))
  = (row * c <? Qceiling q).
Proof.
  intros Hc. unfold Js.div, Js.ofZ at 2.
  assert (Hz : Js.Qis_zero (inject_Z c) = false).
  { unfold Js.Qis_zero, Qeq_bool; simpl. apply Z.eqb_neq. lia. }
  rewrite Hz. unfold Js.Math_ceil.
  rewrite lt_ofZ, <- !lt_ofZ_Fin. unfold Js.lt, Js.ofZ.
  now rewrite Qle_div_int by lia.
Qed.

Lemma Qceiling_div_int (n c : Z) :
  0 < c -> Qceiling (inject_Z n / inject_Z c) = ceilDiv n c.
Proof.
  intros Hc. destruct c as [|p|p]; try lia.
  unfold ceilDiv, Qceiling, Qfloor, Qdiv, Qmult, Qinv, Qopp, inject_Z; simpl.
  now rewrite Z.mul_1_r.
Qed.

Lemma Math_ceil_div_ofZ (n c : Z) :
  1 <= c ->
  Js.Math_ceil (Js.div (Js.ofZ n) (Js.ofZ c)) = Js.ofZ (ceilDiv n c).
Proof.
  intros Hc.
  assert (Hz : Js.Qis_zero (inject_Z c) = false).
  { unfold Js.Qis_zero, Qeq_bool; simpl. apply Z.eqb_neq. lia. }
  change (Js.div (Js.ofZ n) (Js.ofZ c))
    with (if Js.Qis_zero (inject_Z c)
          then (if Js.Qis_zero (inject_Z n) then Js.NaN
                else Js.Inf (Js.Qsign_neg (inject_Z n)))
          else Js.Fin (inject_Z n / inject_Z c)).
  rewrite Hz. unfold Js.Math_ceil.
  now rewrite Qceiling_div_int by lia.
Qed.

Lemma ceil_sqrt_bounds (n : Z) :
  1 <= n ->
  let c := Js.ceil_sqrt n in
  1 <= c /\ (c - 1) * (c - 1) < n <= c * c.
Proof.
  intros Hn c. subst c. unfold Js.ceil_sqrt.
  pose proof (Z.sqrt_spec n ltac:(lia)) as Hs. cbv zeta in Hs.
  pose proof (Z.sqrt_nonneg n) as Hs0.
  destruct (Z.eqb_spec (Z.sqrt n * Z.sqrt n) n) as [E|E]; nia.
Qed.

Lemma ceilDiv_bounds (n c : Z) :
  1 <= c ->
  (ceilDiv n c - 1) * c < n <= ceilDiv n c * c.
Proof.
  intros Hc. unfold ceilDiv.
  pose proof (Z.div_mod (- n) c ltac:(lia)) as Hdm.
  pose proof (Z.mod_pos_bound (- n) c ltac:(lia)) as Hm.
  nia.
Qed.

Lemma gridCols_Fin (q : Q) :
  (0 <= q)%Q ->
  MLService.gridCols (Js.Fin q) = Js.ofZ (Js.ceil_sqrt (Qceiling q)).
Proof.
  intros Hq. unfold MLService.gridCols, Js.Math_ceil_sqrt, Js.Qsign_neg.
  apply Qle_bool_iff in Hq. now rewrite Hq.
Qed.

(** The loops on a finite count: they see it through its ceiling. *)
Lemma run_Fin (q : Q) (fuel : nat) :
  (Z.to_nat (Qceiling q) < fuel)%nat ->
  MLService.generatePlaceholderDetections_run fuel (Js.Fin q)
  = Some (grid (Qceiling q)).
Proof.
  intros Hfuel. unfold MLService.generatePlaceholderDetections_run, grid.
  destruct fuel as [|fuel]; [lia|].
  destruct (Z.le_gt_cases (Qceiling q) 0) as [Hle|Hgt].
  - cbn [MLService.rowLoop]. rewrite lt_ofZ_Fin.
    replace (0 <? Qceiling q) with false by (symmetry; apply Z.ltb_ge; lia).
    rewrite andb_false_r.
    replace (Z.to_nat (Qceiling q)) with 0%nat by lia. reflexivity.
  - assert (Hq : (0 <= q)%Q).
    { destruct (Qlt_le_dec q 0) as [Hneg|Hpos]; [exfalso|exact Hpos].
      assert (Hc : (inject_Z (Qceiling q - 1) < inject_Z 0)%Q).
      { eapply Qlt_trans; [apply Qceiling_lt|exact Hneg]. }
      rewrite <- Zlt_Qlt in Hc. lia. }
    unfold MLService.gridRows. rewrite (gridCols_Fin q Hq).
    destruct (ceil_sqrt_bounds (Qceiling q) ltac:(lia)) as [Hc _].
    rewrite (rowLoop_run (Js.Fin q)
               (Js.Math_ceil
                  (Js.div (Js.Fin q) (Js.ofZ (Js.ceil_sqrt (Qceiling q)))))
               (Qceiling q) (Js.ceil_sqrt (Qceiling q))); try lia.
    + rewrite Z.sub_0_r. reflexivity.
    + intros i. apply lt_ofZ_Fin.
    + intros row _. now apply rows_test_Fin.
Qed.

(** The bound on the loop tests that [generatePlaceholderDetections] takes
    is enough for every count: the function is total. *)
Lemma generatePlaceholderDetections_total (count : Js.JsNum) :
  MLService.generatePlaceholderDetections_run (MLService.enoughFuel count) count
  = Some (MLService.generatePlaceholderDetections count).
Proof.
  unfold MLService.generatePlaceholderDetections.
  destruct count as [|[|]|q]; try reflexivity.
  cbn [MLService.enoughFuel]. now rewrite run_Fin by lia.
Qed.

Lemma generatePlaceholderDetections_Fin (q : Q) :
  MLService.generatePlaceholderDetections (Js.Fin q) = grid (Qceiling q).
Proof.
  pose proof (generatePlaceholderDetections_total (Js.Fin q)) as H.
  cbn [MLService.enoughFuel] in H. rewrite run_Fin in H by lia.
  now injection H.
Qed.

Lemma grid_length (n : Z) : 0 <= n -> Js.length (grid n) = n.
Proof.
  intros Hn. unfold Js.length, grid. rewrite length_map, range_length. lia.
Qed.

Lemma grid_nth (n i : Z) :
  0 <= i < n ->
  nth_error (grid n) (Z.to_nat i) = Some (placeholderAt (Js.ceil_sqrt n) i).
Proof.
  intros Hi. unfold grid. rewrite nth_error_map, range_nth by lia.
  simpl. do 2 f_equal. lia.
Qed.

Lemma grid_cells (n : Z) (d : Detection.t) :
  In d (grid n) ->
  Detection.confidence d = Js.ofZ 1
  /\ Detection.manual d = Some false
  /\ BoundingBox.width (Detection.bbox d) = Js.ofZ 60
  /\ BoundingBox.height (Detection.bbox d) = Js.ofZ 60.
Proof.
  unfold grid. intros H. apply in_map_iff in H. destruct H as (i & <- & _).
  repeat split.
Qed.

(** C6.  For every non-negative integer count (up to 2^52, where binary64
    computes the square root and the quotient as the model does) the
    placeholder synthesis terminates and returns exactly [count]
    detections; detection [i] has id [obj_i] and sits in row [i / columns],
    column [i mod columns] of a grid with [columns = ceil(sqrt(count))] and
    [rows = ceil(count / columns)], in a cell of 60 by 60 at
    (50 + 100 * column, 50 + 100 * row); every detection has confidence 1
    and [manual = false]. *)
Theorem placeholder_grid (n : Z) :
  0 <= n <= Js.exactUpTo ->
  let cols := Js.ceil_sqrt n in
  let rows := ceilDiv n cols in
  (forall fuel, (Z.to_nat n < fuel)%nat ->
     MLService.generatePlaceholderDetections_run fuel (Js.ofZ n) = Some (grid n))
  /\ MLService.generatePlaceholderDetections (Js.ofZ n) = grid n
  /\ Js.length (grid n) = n
  /\ (forall i, 0 <= i < n ->
        nth_error (grid n) (Z.to_nat i) = Some (placeholderAt cols i)
        /\ 0 <= i mod cols < cols
        /\ 0 <= i / cols < rows)
  /\ (forall d, In d (grid n) ->
        Detection.confidence d = Js.ofZ 1
        /\ Detection.manual d = Some false
        /\ BoundingBox.width (Detection.bbox d) = Js.ofZ 60
        /\ BoundingBox.height (Detection.bbox d) = Js.ofZ 60)
  /\ (1 <= n ->
        MLService.gridCols (Js.ofZ n) = Js.ofZ cols
        /\ MLService.gridRows (Js.ofZ n) = Js.ofZ rows
        /\ (cols - 1) * (cols - 1) < n <= cols * cols
        /\ (rows - 1) * cols < n <= rows * cols).
Proof.
  intros [Hn _] cols rows.
  assert (Hceil : Qceiling (inject_Z n) = n) by apply Qceiling_Z.
  split; [|split; [|split; [|split; [|split]]]].
  - intros fuel Hfuel. unfold Js.ofZ.
    rewrite run_Fin by (rewrite Hceil; exact Hfuel). now rewrite Hceil.
  - unfold Js.ofZ. now rewrite generatePlaceholderDetections_Fin, Hceil.
  - now apply grid_length.
  - intros i Hi. split; [now apply grid_nth|].
    destruct (ceil_sqrt_bounds n ltac:(lia)) as [Hc _]. fold cols in Hc.
    pose proof (ceilDiv_bounds n cols Hc) as Hr. fold rows in Hr.
    pose proof (Z.mod_pos_bound i cols ltac:(lia)) as Hm.
    pose proof (Z.div_mod i cols ltac:(lia)) as Hdm.
    split; [exact Hm|]. split; [apply Z.div_pos; lia|]. nia.
  - apply grid_cells.
  - intros Hpos.
    destruct (ceil_sqrt_bounds n Hpos) as [Hc Hsq]. fold cols in Hc, Hsq.
    assert (Hcols : MLService.gridCols (Js.ofZ n) = Js.ofZ cols).
    { unfold Js.ofZ at 1. rewrite gridCols_Fin, Hceil; [reflexivity|].
      change (inject_Z 0 <= inject_Z n)%Q. now rewrite <- Zle_Qle. }
    split; [exact Hcols|]. split; [|split; [exact Hsq|]].
    + unfold MLService.gridRows. rewrite Hcols.
      now apply Math_ceil_div_ofZ.
    + apply ceilDiv_bounds. exact Hc.
Qed.

Lemma placeholder_grid_witness :
  MLService.gridCols (Js.ofZ 10) = Js.ofZ 4
  /\ MLService.gridRows (Js.ofZ 10) = Js.ofZ 3
  /\ Js.length (MLService.generatePlaceholderDetections (Js.ofZ 10)) = 10
  /\ forall d, In d (MLService.generatePlaceholderDetections (Js.ofZ 10)) ->
       Detection.confidence d = Js.ofZ 1 /\ Detection.manual d = Some false.
Proof.
  destruct (placeholder_grid 10
              ltac:(split; [lia|apply Z.leb_le; reflexivity]))
    as (_ & Hgen & Hlen & _ & Hcells & Hdims).
  destruct (Hdims ltac:(lia)) as (Hcols & Hrows & _).
  split; [exact Hcols|]. split; [exact Hrows|].
  rewrite Hgen. split; [exact Hlen|].
  intros d Hd. destruct (Hcells d Hd) as (Hconf & Hman & _). now split.
Defined.

Example placeholders_of_ten :
  map (fun d => (Detection.id d, BoundingBox.x (Detection.bbox d),
                 BoundingBox.y (Detection.bbox d)))
    (MLService.generatePlaceholderDetections (Js.ofZ 10))
  = [("obj_0", Js.ofZ 50, Js.ofZ 50);   ("obj_1", Js.ofZ 150, Js.ofZ 50);
     ("obj_2", Js.ofZ 250, Js.ofZ 50);  ("obj_3", Js.ofZ 350, Js.ofZ 50);
     ("obj_4", Js.ofZ 50, Js.ofZ 150);  ("obj_5", Js.ofZ 150, Js.ofZ 150);
     ("obj_6", Js.ofZ 250, Js.ofZ 150); ("obj_7", Js.ofZ 350, Js.ofZ 150);
     ("obj_8", Js.ofZ 50, Js.ofZ 250);  ("obj_9", Js.ofZ 150, Js.ofZ 250)].
Proof. vm_compute. reflexivity. Qed.

(** C10.  At [count = 0] the placeholder synthesis returns the empty list:
    the columns are [ceil(sqrt(0)) = 0], the quotient [0 / 0] and with it
    the rows are not-a-number, the test of the row loop fails at once, and
    the test of the column loop would fail at once as well. *)
Theorem placeholders_of_zero :
  MLService.gridCols (Js.ofZ 0) = Js.ofZ 0
  /\ Js.div (Js.ofZ 0) (MLService.gridCols (Js.ofZ 0)) = Js.NaN
  /\ MLService.gridRows (Js.ofZ 0) = Js.NaN
  /\ Js.lt (Js.ofZ 0) (MLService.gridRows (Js.ofZ 0)) = false
  /\ (forall fuel row,
        MLService.colLoop (S fuel) (MLService.gridCols (Js.ofZ 0)) (Js.ofZ 0)
          row 0 0 [] = Some (0, []))
  /\ (forall fuel,
        MLService.generatePlaceholderDetections_run (S fuel) (Js.ofZ 0) = Some [])
  /\ MLService.generatePlaceholderDetections (Js.ofZ 0) = [].
Proof. repeat split; reflexivity. Qed.

(* ================================================================== *)
(** * Further properties *)

(** ** The repository: what a call changes and what it leaves alone *)

Import Extra.

Lemma find_replace_other {A} (q : A -> bool) (l1 l2 : list A) (a x : A) :
  q a = q x -> q x = false ->
  find q (l1 ++ x :: l2) = find q (l1 ++ a :: l2).
Proof.
  intros Hax Hx. induction l1 as [|b l1 IH]; simpl.
  - rewrite Hx. rewrite Hax, Hx. reflexivity.
  - destruct (q b); [reflexivity|exact IH].
Qed.

Lemma updateSession_effect (session stored : Session.t) (st : Store) :
  lookup (Session.id session) st = Some stored ->
  exists before after,
    sessionsOf st = before ++ stored :: after
    /\ updateSession session st = (Js.Ok tt, Some (before ++ session :: after)).
Proof.
  intros E. rewrite (updateSession_found _ _ _ E). unfold lookup in E.
  destruct (assign_findIndex_split _ session _ _ E) as (l1 & l2 & Hl & _ & Hset).
  exists l1, l2. split; [exact Hl|]. now rewrite Hset.
Qed.

Lemma updateSession_frame (session stored : Session.t) (st : Store)
    (other : string) :
  lookup (Session.id session) st = Some stored ->
  other <> Session.id session ->
  lookup other (snd (updateSession session st)) = lookup other st.
Proof.
  intros E Hother. pose proof (lookup_id _ _ _ E) as Hid.
  destruct (updateSession_effect _ _ _ E) as (l1 & l2 & Hl & Hrun).
  rewrite Hrun. unfold lookup. simpl. rewrite Hl.
  apply find_replace_other.
  - now rewrite Hid.
  - apply String.eqb_neq. congruence.
Qed.

Lemma updateSession_length (session : Session.t) (st : Store) :
  List.length (sessionsOf (snd (updateSession session st)))
  = List.length (sessionsOf st).
Proof.
  destruct (lookup (Session.id session) st) as [stored|] eqn:E.
  - destruct (updateSession_effect _ _ _ E) as (l1 & l2 & Hl & Hrun).
    rewrite Hrun, Hl. simpl. rewrite !length_app. reflexivity.
  - now rewrite (updateSession_missing _ _ E).
Qed.

Lemma lookup_cons (other : string) (s : Session.t) (l : list Session.t) :
  lookup other (Some (s :: l))
  = if String.eqb (Session.id s) other then Some s else lookup other (Some l).
Proof. reflexivity. Qed.

(** X1.  [createSession] puts the new session first, [getSession] with the
    id it returns finds that very session, and every other id is looked up
    as before. *)
Theorem createSession_lookup (name : string) (objectType : option string)
    (now : Z) (date : string) (st : Store) :
  exists s,
    fst (StorageService.createSession name objectType now date st) = Js.Ok s
    /\ sessionsOf (snd (StorageService.createSession name objectType now date st))
       = s :: sessionsOf st
    /\ getSession (Session.id s)
         (snd (StorageService.createSession name objectType now date st))
       = (Js.Ok (Some s),
          snd (StorageService.createSession name objectType now date st))
    /\ forall other,
         other <> Session.id s ->
         lookup other
           (snd (StorageService.createSession name objectType now date st))
         = lookup other st.
Proof.
  eexists. split; [reflexivity|]. split; [reflexivity|]. split.
  - rewrite getSession_lookup. unfold lookup; simpl.
    now rewrite String.eqb_refl.
  - intros other Hother.
    change (snd (StorageService.createSession name objectType now date st))
      with (Some (Session.mk ("session_" +++ Js.toString now) name date [] 0
                    objectType :: sessionsOf st)).
    rewrite lookup_cons.
    destruct (String.eqb_spec
                (Session.id (Session.mk ("session_" +++ Js.toString now) name
                               date [] 0 objectType)) other) as [E|E];
      [congruence|].
    now destruct st.
Qed.

Lemma find_filter_other (sessionId other : string) (l : list Session.t) :
  other <> sessionId ->
  find (fun s => String.eqb (Session.id s) other)
    (filter (fun s => negb (String.eqb (Session.id s) sessionId)) l)
  = find (fun s => String.eqb (Session.id s) other) l.
Proof.
  intros Hother. induction l as [|s l IH]; simpl; [reflexivity|].
  destruct (String.eqb_spec (Session.id s) sessionId) as [E|E]; simpl.
  - destruct (String.eqb_spec (Session.id s) other) as [E'|E']; [congruence|].
    exact IH.
  - destruct (String.eqb (Session.id s) other); [reflexivity|exact IH].
Qed.

Lemma find_filter_self (sessionId : string) (l : list Session.t) :
  find (fun s => String.eqb (Session.id s) sessionId)
    (filter (fun s => negb (String.eqb (Session.id s) sessionId)) l) = None.
Proof.
  induction l as [|s l IH]; simpl; [reflexivity|].
  destruct (String.eqb (Session.id s) sessionId) eqn:E; simpl; [exact IH|].
  now rewrite E.
Qed.

Lemma filter_filter_same {A} (p : A -> bool) (l : list A) :
  filter p (filter p l) = filter p l.
Proof.
  induction l as [|a l IH]; simpl; [reflexivity|].
  destruct (p a) eqn:E; simpl; [rewrite E, IH|]; auto.
Qed.

(** X2.  [deleteSession] never fails; afterwards no session has the id,
    every other id is looked up as before, and deleting again changes
    nothing. *)
Theorem deleteSession_removes (sessionId : string) (st : Store) :
  let st' := snd (StorageService.deleteSession sessionId st) in
  fst (StorageService.deleteSession sessionId st) = Js.Ok tt
  /\ lookup sessionId st' = None
  /\ (forall other, other <> sessionId -> lookup other st' = lookup other st)
  /\ snd (StorageService.deleteSession sessionId st') = st'.
Proof.
  unfold StorageService.deleteSession. run_store. fold (sessionsOf st).
  split; [reflexivity|]. split; [|split].
  - unfold lookup. simpl. apply find_filter_self.
  - intros other Hother. unfold lookup. simpl. now apply find_filter_other.
  - now rewrite filter_filter_same.
Qed.

(** X3.  The session list after a deletion from the home screen is the
    stored list, and it is the previous list without the sessions of that
    id, the others in their order. *)
Theorem home_deleteSession_list (sessionId : string) (scr : HomeScreen.State)
    (st : Store) :
  exists scr' st',
    HomeScreen.deleteSession sessionId scr st = (Js.Ok scr', st')
    /\ HomeScreen.sessions scr' = sessionsOf st'
    /\ HomeScreen.sessions scr'
       = filter (fun s => negb (String.eqb (Session.id s) sessionId))
           (sessionsOf st)
    /\ (forall s, In s (HomeScreen.sessions scr') <->
                  In s (sessionsOf st) /\ Session.id s <> sessionId).
Proof.
  eexists. eexists. split; [reflexivity|]. simpl. fold (sessionsOf st).
  split; [reflexivity|]. split; [reflexivity|].
  intros s. rewrite filter_In. rewrite negb_true_iff, String.eqb_neq. tauto.
Qed.

Lemma countSum_app (l l' : list ImageCount.t) :
  countSum (l ++ l') = countSum l + countSum l'.
Proof. induction l as [|a l IH]; simpl; [reflexivity|]. rewrite IH. lia. Qed.

(** X4.  For a stored session [addImageToSession] succeeds, and reading the
    session back gives the same session with the new image last (the given
    path, count and detections, no corrections) and the total raised to the
    sum of the earlier counts plus the new count; every other id is looked
    up as before and the number of sessions is unchanged. *)
Theorem addImageToSession_readback (sessionId imagePath : string) (count : Z)
    (detections : list Detection.t) (now : Z) (date : string)
    (st : Store) (s : Session.t) :
  lookup sessionId st = Some s ->
  let run := addImageToSession sessionId imagePath count detections now date st in
  fst run = Js.Ok tt
  /\ getSession sessionId (snd run)
     = (Js.Ok (Some (withImages s
                       (Session.images s
                        ++ [newImage imagePath count detections now date])
                       (countSum (Session.images s) + count))),
        snd run)
  /\ (forall other, other <> sessionId -> lookup other (snd run) = lookup other st)
  /\ List.length (sessionsOf (snd run)) = List.length (sessionsOf st).
Proof.
  intros E run. subst run. rewrite addImageToSession_run, E.
  pose proof (lookup_id _ _ _ E) as Hid.
  set (s' := retotalled s
               (Session.images s
                ++ [ImageCount.mk ("img_" +++ Js.toString now) imagePath count
                      date 0 detections])).
  assert (Es : lookup (Session.id s') st = Some s) by (simpl; now rewrite Hid).
  split; [|split; [|split]].
  - destruct (updateSession_effect _ _ _ Es) as (l1 & l2 & _ & Hrun).
    now rewrite Hrun.
  - rewrite getSession_lookup. do 2 f_equal.
    replace sessionId with (Session.id s') by exact Hid.
    rewrite (updateSession_lookup _ _ _ Es). f_equal.
    subst s'. unfold retotalled, withImages, newImage. f_equal.
    rewrite sumCounts_countSum, countSum_app. simpl. lia.
  - intros other Hother. apply (updateSession_frame _ _ _ _ Es).
    simpl. congruence.
  - apply updateSession_length.
Qed.

Lemma addImageToSession_readback_witness :
  getSession "session_1700000000000"
    (snd (addImageToSession "session_1700000000000" "file:///c.jpg" 4 []
            1700000003000 "2023-11-14T22:13:23.000Z" (Some [shelf])))
  = (Js.Ok (Some (withImages shelf
                    (Session.images shelf
                     ++ [newImage "file:///c.jpg" 4 [] 1700000003000
                           "2023-11-14T22:13:23.000Z"])
                    (countSum (Session.images shelf) + 4))),
     snd (addImageToSession "session_1700000000000" "file:///c.jpg" 4 []
            1700000003000 "2023-11-14T22:13:23.000Z" (Some [shelf]))).
Proof.
  destruct (addImageToSession_readback "session_1700000000000" "file:///c.jpg"
              4 [] 1700000003000 "2023-11-14T22:13:23.000Z" (Some [shelf]) shelf)
    as (_ & H & _).
  - reflexivity.
  - exact H.
Defined.

(** X5.  For an id that is not stored, [addImageToSession] and
    [updateImageCount] throw [Session not found] and write nothing; for a
    stored session without the image, [updateImageCount] returns normally
    and writes nothing. *)
Theorem missing_targets_write_nothing (sessionId : string) (st : Store) :
  (lookup sessionId st = None ->
   (forall imagePath count detections now date,
      addImageToSession sessionId imagePath count detections now date st
      = (Js.Throw (Js.Error "Session not found"), st))
   /\ (forall imageId newCount corrections,
         updateImageCount sessionId imageId newCount corrections st
         = (Js.Throw (Js.Error "Session not found"), st)))
  /\ (forall s imageId newCount corrections,
        lookup sessionId st = Some s ->
        (forall img, In img (Session.images s) -> ImageCount.id img <> imageId) ->
        updateImageCount sessionId imageId newCount corrections st
        = (Js.Ok tt, st)).
Proof.
  split.
  - intros E. split; intros.
    + now rewrite addImageToSession_run, E.
    + now rewrite updateImageCount_run, E.
  - intros s imageId newCount corrections E Habsent.
    rewrite updateImageCount_run, E.
    destruct (find _ (Session.images s)) as [img|] eqn:F; [|reflexivity].
    apply find_some in F. destruct F as [Hin Hid].
    apply String.eqb_eq in Hid. now apply Habsent in Hin.
Qed.

Lemma missing_targets_write_nothing_witness :
  addImageToSession "session_42" "file:///c.jpg" 4 [] 1700000003000
    "2023-11-14T22:13:23.000Z" (Some [shelf])
  = (Js.Throw (Js.Error "Session not found"), Some [shelf])
  /\ updateImageCount "session_1700000000000" "img_0" 9 1 (Some [shelf])
     = (Js.Ok tt, Some [shelf]).
Proof.
  split.
  - destruct (missing_targets_write_nothing "session_42" (Some [shelf]))
      as [H _].
    destruct (H ltac:(reflexivity)) as [Hadd _]. apply Hadd.
  - destruct (missing_targets_write_nothing "session_1700000000000" (Some [shelf]))
      as [_ H].
    apply (H shelf); [reflexivity|].
    intros img [<-|[<-|[]]]; discriminate.
Defined.

Lemma recount_ids (imageId : string) (newCount corrections : Z)
    (images : list ImageCount.t) :
  map ImageCount.id (recount imageId newCount corrections images)
  = map ImageCount.id images.
Proof.
  unfold recount. induction images as [|img images IH]; simpl; [reflexivity|].
  destruct (String.eqb (ImageCount.id img) imageId); simpl; [reflexivity|].
  now rewrite IH.
Qed.

Lemma recount_split (imageId : string) (newCount corrections : Z)
    (images : list ImageCount.t) (image : ImageCount.t) :
  find (fun img => String.eqb (ImageCount.id img) imageId) images = Some image ->
  exists before after,
    images = before ++ image :: after
    /\ (forall img, In img before -> ImageCount.id img <> imageId)
    /\ recount imageId newCount corrections images
       = before
         ++ ImageCount.mk (ImageCount.id image) (ImageCount.path image) newCount
              (ImageCount.timestamp image) corrections
              (ImageCount.detections image)
         :: after.
Proof.
  unfold recount. revert image.
  induction images as [|img images IH]; simpl; intros image; [discriminate|].
  destruct (String.eqb_spec (ImageCount.id img) imageId) as [E|E].
  - intros [= <-]. exists [], images. simpl. repeat split. intros ? [].
  - intros F. destruct (IH _ F) as (l1 & l2 & -> & Hl1 & Hrec).
    exists (img :: l1), l2. split; [reflexivity|]. split.
    + intros x [<-|Hx]; auto.
    + simpl. now rewrite Hrec.
Qed.

(** X6.  When the session and the image are stored, [updateImageCount]
    rewrites the count and the corrections of the first image with that id
    and nothing else of it; the images before and after it are kept, and
    the total moves by the difference of the counts. *)
Theorem updateImageCount_readback (sessionId imageId : string)
    (newCount corrections : Z) (st : Store) (s : Session.t)
    (image : ImageCount.t) :
  lookup sessionId st = Some s ->
  find (fun img => String.eqb (ImageCount.id img) imageId) (Session.images s)
  = Some image ->
  exists before after,
    Session.images s = before ++ image :: after
    /\ (forall img, In img before -> ImageCount.id img <> imageId)
    /\ getSession sessionId
         (snd (updateImageCount sessionId imageId newCount corrections st))
       = (Js.Ok
            (Some (withImages s
                     (before
                      ++ ImageCount.mk (ImageCount.id image)
                           (ImageCount.path image) newCount
                           (ImageCount.timestamp image) corrections
                           (ImageCount.detections image)
                      :: after)
                     (countSum (Session.images s) - ImageCount.count image
                      + newCount))),
          snd (updateImageCount sessionId imageId newCount corrections st)).
Proof.
  intros E F. rewrite updateImageCount_run, E, F.
  pose proof (lookup_id _ _ _ E) as Hid.
  destruct (recount_split imageId newCount corrections _ _ F)
    as (l1 & l2 & Himg & Hl1 & Hrec).
  exists l1, l2. split; [exact Himg|]. split; [exact Hl1|].
  set (s' := retotalled s (recount imageId newCount corrections (Session.images s))).
  assert (Es : lookup (Session.id s') st = Some s) by (simpl; now rewrite Hid).
  rewrite getSession_lookup. do 2 f_equal.
  replace sessionId with (Session.id s') by exact Hid.
  rewrite (updateSession_lookup _ _ _ Es). f_equal.
  subst s'. unfold retotalled, withImages. rewrite Hrec. f_equal.
  rewrite sumCounts_countSum, Himg, !countSum_app. simpl. lia.
Qed.

Lemma updateImageCount_readback_witness :
  exists before after,
    Session.images shelf
    = before
      ++ ImageCount.mk "img_1700000002000" "file:///b.jpg" 3
           "2023-11-14T22:13:22.000Z" 1 []
      :: after
    /\ (forall img, In img before -> ImageCount.id img <> "img_1700000002000")
    /\ getSession "session_1700000000000"
         (snd (updateImageCount "session_1700000000000" "img_1700000002000"
                 7 2 (Some [shelf])))
       = (Js.Ok
            (Some (withImages shelf
                     (before
                      ++ ImageCount.mk "img_1700000002000" "file:///b.jpg" 7
                           "2023-11-14T22:13:22.000Z" 2 []
                      :: after)
                     (countSum (Session.images shelf) - 3 + 7))),
          snd (updateImageCount "session_1700000000000" "img_1700000002000"
                 7 2 (Some [shelf]))).
Proof.
  apply (updateImageCount_readback "session_1700000000000" "img_1700000002000"
           7 2 (Some [shelf]) shelf
           (ImageCount.mk "img_1700000002000" "file:///b.jpg" 3
              "2023-11-14T22:13:22.000Z" 1 [])); reflexivity.
Defined.

Lemma countSum_filter_split (p : ImageCount.t -> bool)
    (images : list ImageCount.t) :
  countSum (filter p images) + countSum (filter (fun img => negb (p img)) images)
  = countSum images.
Proof.
  induction images as [|img images IH]; simpl; [reflexivity|].
  destruct (p img); simpl; lia.
Qed.

Lemma without_absent (imageId : string) (images : list ImageCount.t) :
  (forall img, In img images -> ImageCount.id img <> imageId) ->
  without imageId images = images.
Proof.
  unfold without. induction images as [|img images IH]; simpl; intros Habsent;
    [reflexivity|].
  destruct (String.eqb_spec (ImageCount.id img) imageId) as [Eid|Eid]; simpl.
  - exfalso. apply (Habsent img); [now left|exact Eid].
  - f_equal. apply IH. intros x Hx. apply Habsent. now right.
Qed.

(** X7.  Removing an image from the session screen, for a session that is
    stored: the stored session and the session on the screen both become
    the session without the images of that id, the remaining images in
    their order, and the total drops by the counts of the removed images.
    For an image id that the session does not have, images and total sum
    stay as they were. *)
Theorem deleteImage_readback (imageId : string) (scr : SessionScreen.State)
    (st : Store) (s stored : Session.t) :
  SessionScreen.session scr = Some s ->
  lookup (Session.id s) st = Some stored ->
  let s' := withImages s (without imageId (Session.images s))
              (countSum (without imageId (Session.images s))) in
  let removed :=
    filter (fun img => String.eqb (ImageCount.id img) imageId) (Session.images s) in
  (exists st',
     SessionScreen.deleteImage imageId scr st
     = (Js.Ok (SessionScreen.mk (Some s') (SessionScreen.loading scr)), st')
     /\ lookup (Session.id s) st' = Some s')
  /\ (forall img, In img (Session.images s') <->
                  In img (Session.images s) /\ ImageCount.id img <> imageId)
  /\ Session.totalCount s' + countSum removed = countSum (Session.images s)
  /\ ((forall img, In img (Session.images s) -> ImageCount.id img <> imageId) ->
      Session.images s' = Session.images s).
Proof.
  intros Hscr E s' removed.
  assert (Hs' : retotalled s (without imageId (Session.images s)) = s').
  { subst s'. unfold retotalled, withImages. now rewrite sumCounts_countSum. }
  split; [|split; [|split]].
  - exists (snd (updateSession s' st)). split.
    + unfold SessionScreen.deleteImage. rewrite Hscr.
      unfold StorageService.bind at 1.
      change (Session.mk (Session.id s) (Session.name s) (Session.createdAt s)
                (filter (fun img => negb (String.eqb (ImageCount.id img) imageId))
                   (Session.images s))
                (sumCounts
                   (filter (fun img => negb (String.eqb (ImageCount.id img) imageId))
                      (Session.images s)))
                (Session.objectType s))
        with (retotalled s (without imageId (Session.images s))).
      rewrite Hs'.
      destruct (updateSession_effect s' stored st E) as (l1 & l2 & _ & Hrun).
      rewrite Hrun. reflexivity.
    + exact (updateSession_lookup s' stored st E).
  - intros img. subst s'. simpl. unfold without. rewrite filter_In.
    rewrite negb_true_iff, String.eqb_neq. tauto.
  - subst s' removed. simpl. unfold without.
    pose proof (countSum_filter_split
                  (fun img => String.eqb (ImageCount.id img) imageId)
                  (Session.images s)) as H.
    cbv beta in H. lia.
  - intros Habsent. subst s'. simpl. now apply without_absent.
Qed.

Lemma deleteImage_readback_witness :
  exists st',
    SessionScreen.deleteImage "img_1700000001000"
      (SessionScreen.mk (Some shelf) false) (Some [shelf])
    = (Js.Ok (SessionScreen.mk
                (Some (withImages shelf
                         (without "img_1700000001000" (Session.images shelf))
                         (countSum
                            (without "img_1700000001000" (Session.images shelf)))))
                false),
       st')
    /\ lookup (Session.id shelf) st'
       = Some (withImages shelf
                 (without "img_1700000001000" (Session.images shelf))
                 (countSum (without "img_1700000001000" (Session.images shelf)))).
Proof.
  destruct (deleteImage_readback "img_1700000001000"
              (SessionScreen.mk (Some shelf) false) (Some [shelf]) shelf shelf)
    as (H & _).
  - reflexivity.
  - reflexivity.
  - exact H.
Defined.

(** X8.  When the session of the screen is no longer stored, removing an
    image writes nothing, while the screen goes on to show the session
    without the image. *)
Theorem deleteImage_of_unstored_session (imageId : string)
    (scr : SessionScreen.State) (st : Store) (s : Session.t) :
  SessionScreen.session scr = Some s ->
  lookup (Session.id s) st = None ->
  exists scr',
    SessionScreen.deleteImage imageId scr st = (Js.Ok scr', st)
    /\ SessionScreen.session scr'
       = Some (withImages s (without imageId (Session.images s))
                 (countSum (without imageId (Session.images s)))).
Proof.
  intros Hscr E. unfold SessionScreen.deleteImage. rewrite Hscr.
  unfold StorageService.bind at 1.
  match goal with
  | |- context [updateSession ?u st] =>
      assert (Hu : updateSession u st = (Js.Ok tt, st))
        by (apply updateSession_missing; exact E);
      rewrite Hu
  end.
  eexists. split; [reflexivity|]. simpl.
  unfold withImages, without. now rewrite sumCounts_countSum.
Qed.

Lemma deleteImage_of_unstored_session_witness :
  exists scr',
    SessionScreen.deleteImage "img_1700000001000"
      (SessionScreen.mk (Some shelf) false) (Some [stray])
    = (Js.Ok scr', Some [stray])
    /\ SessionScreen.session scr'
       = Some (withImages shelf
                 (without "img_1700000001000" (Session.images shelf))
                 (countSum (without "img_1700000001000" (Session.images shelf)))).
Proof.
  apply (deleteImage_of_unstored_session "img_1700000001000"
           (SessionScreen.mk (Some shelf) false) (Some [stray]) shelf);
    reflexivity.
Defined.

(** ** The average on the session screen *)

Lemma Math_round_div_ofZ (t n : Z) :
  0 < n ->
  Js.Math_round (Js.div (Js.ofZ t) (Js.ofZ n)) = Js.ofZ ((2 * t + n) / (2 * n)).
Proof.
  intros Hn.
  assert (Hz : Js.Qis_zero (inject_Z n) = false).
  { unfold Js.Qis_zero, Qeq_bool; simpl. apply Z.eqb_neq. lia. }
  change (Js.div (Js.ofZ t) (Js.ofZ n))
    with (if Js.Qis_zero (inject_Z n)
          then (if Js.Qis_zero (inject_Z t) then Js.NaN
                else Js.Inf (Js.Qsign_neg (inject_Z t)))
          else Js.Fin (inject_Z t / inject_Z n)).
  rewrite Hz. unfold Js.Math_round. f_equal.
  destruct n as [|p|p]; try lia.
  remember ((2 * t + Z.pos p) / (2 * Z.pos p)) as r eqn:Hr.
  unfold Qfloor, Qdiv, Qmult, Qinv, Qplus, inject_Z; simpl.
  subst r. f_equal; lia.
Qed.

(** X9.  The average shown for a session is always an integer: 0 for a
    session without images, and otherwise the total divided by the number
    of images, rounded to the nearest integer with halves upwards; no
    division by zero takes place. *)
Theorem averagePerImage_rounds (s : Session.t) :
  (Session.images s = [] -> SessionScreen.averagePerImage s = Js.ofZ 0)
  /\ (Session.images s <> [] ->
      exists a,
        SessionScreen.averagePerImage s = Js.ofZ a
        /\ 2 * a * Js.length (Session.images s)
           <= 2 * Session.totalCount s + Js.length (Session.images s)
           < 2 * (a + 1) * Js.length (Session.images s)).
Proof.
  unfold SessionScreen.averagePerImage. split.
  - intros ->. reflexivity.
  - intros Hne.
    assert (Hlen : 0 < Js.length (Session.images s)).
    { unfold Js.length. destruct (Session.images s); [congruence|simpl; lia]. }
    destruct (Z.ltb_spec 0 (Js.length (Session.images s))) as [_|]; [|lia].
    rewrite Math_round_div_ofZ by exact Hlen.
    eexists. split; [reflexivity|].
    set (n := Js.length (Session.images s)) in *.
    set (t := Session.totalCount s).
    pose proof (Z.div_mod (2 * t + n) (2 * n) ltac:(lia)) as Hdm.
    pose proof (Z.mod_pos_bound (2 * t + n) (2 * n) ltac:(lia)) as Hm.
    nia.
Qed.

Lemma averagePerImage_rounds_witness :
  exists a,
    SessionScreen.averagePerImage shelf = Js.ofZ a
    /\ 2 * a * Js.length (Session.images shelf)
       <= 2 * Session.totalCount shelf + Js.length (Session.images shelf)
       < 2 * (a + 1) * Js.length (Session.images shelf).
Proof.
  destruct (averagePerImage_rounds shelf) as [_ H].
  apply H. discriminate.
Defined.

(** ** Numbers written and read back *)

(** The value of the decimal digits [d] read after the value [a]. *)
Lemma parseDigits_decimal (d d' : Decimal.uint) :
  Js.parseDigits 10 (NilEmpty.string_of_uint d)
    (Some (Z.of_N (DecimalPos.Unsigned.of_lu d')))
  = Some (Z.of_N (DecimalPos.Unsigned.of_lu (Decimal.revapp d d'))).
Proof.
  revert d'.
  induction d as [|d IH|d IH|d IH|d IH|d IH|d IH|d IH|d IH|d IH|d IH];
    intros d'; [reflexivity|..];
    cbn [NilEmpty.string_of_uint Js.parseDigits Decimal.revapp];
    match goal with
    | |- context [Js.digitValue ?c] =>
        change (Js.digitValue c) with (Some (Z.of_N (N_of_ascii c) - 48))
    end;
    cbn [N_of_ascii N_of_digits];
    match goal with
    | |- (if ?b then _ else _) = _ => change b with true; cbv iota
    end;
    rewrite <- IH; do 2 f_equal;
    cbn [DecimalPos.Unsigned.of_lu]; lia.
Qed.

Lemma parseInt_of_uint (d : Decimal.uint) (radix : Z) :
  d <> Decimal.Nil -> radix = 0 \/ radix = 10 ->
  Js.parseInt (NilEmpty.string_of_uint d) radix = Js.ofZ (Z.of_N (Pos.of_uint d))
  /\ Js.parseInt (String "-" (NilEmpty.string_of_uint d)) radix
     = Js.ofZ (- Z.of_N (Pos.of_uint d)).
Proof.
  intros Hd Hr.
  assert (Hdigits : Js.parseDigits 10 (NilEmpty.string_of_uint d) None
                    = Some (Z.of_N (Pos.of_uint d))).
  { rewrite DecimalPos.Unsigned.of_uint_alt. unfold Decimal.rev.
    destruct d; try congruence;
      cbn [NilEmpty.string_of_uint Js.parseDigits Decimal.revapp];
      match goal with
      | |- context [Js.digitValue ?c] =>
          change (Js.digitValue c) with (Some (Z.of_N (N_of_ascii c) - 48))
      end;
      cbn [N_of_ascii N_of_digits];
      match goal with
      | |- (if ?b then _ else _) = _ => change b with true; cbv iota
      end;
      match goal with
      | |- Js.parseDigits 10 _ (Some ?a) = Some (Z.of_N (DecimalPos.Unsigned.of_lu (Decimal.revapp _ ?d'))) =>
          change a with (Z.of_N (DecimalPos.Unsigned.of_lu d'))
      end;
      apply parseDigits_decimal. }
  assert (H0x : Js.startsWith0x (NilEmpty.string_of_uint d) = false).
  { destruct d as [|d|d|d|d|d|d|d|d|d|d]; try reflexivity.
    destruct d; reflexivity. }
  unfold Js.parseInt.
  assert (Htrim : Js.trimStart (NilEmpty.string_of_uint d)
                  = NilEmpty.string_of_uint d).
  { destruct d; try congruence; reflexivity. }
  split.
  - rewrite Htrim.
    assert (Hsign : (match NilEmpty.string_of_uint d with
                     | String "-" r => (-1, r)
                     | String "+" r => (1, r)
                     | _ => (1, NilEmpty.string_of_uint d)
                     end) = (1, NilEmpty.string_of_uint d)).
    { destruct d; try congruence; reflexivity. }
    rewrite Hsign.
    destruct Hr as [-> | ->]; cbn [Z.eqb Z.leb Z.compare Pos.compare Pos.compare_cont Pos.eqb orb andb];
      rewrite ?H0x; cbn [andb]; rewrite Hdigits; f_equal; lia.
  - change (Js.trimStart (String "-" (NilEmpty.string_of_uint d)))
      with (String "-" (NilEmpty.string_of_uint d)).
    cbv iota beta.
    change (match String "-" (NilEmpty.string_of_uint d) with
            | String "-" r => (-1, r)
            | String "+" r => (1, r)
            | _ => (1, String "-" (NilEmpty.string_of_uint d))
            end) with (-1, NilEmpty.string_of_uint d).
    destruct Hr as [-> | ->]; cbn [Z.eqb Z.leb Z.compare Pos.compare Pos.compare_cont Pos.eqb orb andb];
      rewrite ?H0x; cbn [andb]; rewrite Hdigits; f_equal; lia.
Qed.

Lemma parseInt_of_toString (z : Z) :
  Js.parseInt (Js.toString z) 10 = Js.ofZ z
  /\ Js.parseInt (Js.toString z) 0 = Js.ofZ z.
Proof.
  unfold Js.toString. destruct z as [|p|p]; [split; reflexivity|..];
    cbn [Z.to_int NilZero.string_of_int];
    pose proof (DecimalPos.Unsigned.to_uint_nonnil p) as Hnil;
    pose proof (DecimalPos.Unsigned.of_to p) as Hof;
    assert (Hs : NilZero.string_of_uint (Pos.to_uint p)
                 = NilEmpty.string_of_uint (Pos.to_uint p))
      by (unfold NilZero.string_of_uint; destruct (Pos.to_uint p);
          [congruence|reflexivity..]);
    rewrite Hs;
    destruct (parseInt_of_uint (Pos.to_uint p) 10 Hnil ltac:(now right))
      as [Hpos10 Hneg10];
    destruct (parseInt_of_uint (Pos.to_uint p) 0 Hnil ltac:(now left))
      as [Hpos0 Hneg0];
    rewrite Hof in *; split; assumption.
Qed.

(** X10.  The text that the taps and removals write into the count field
    reads back as the number written: for every integer [z],
    [parseInt(z.toString())], which [handleManualCountChange] and
    [saveCount] compute, is [z], and so is [parseInt(String(z), 10)]. *)
Theorem count_text_round_trip (z : Z) :
  Js.parseInt (Js.toString z) 0 = Js.ofZ z
  /\ Js.parseInt (Js.toString z) 10 = Js.ofZ z.
Proof.
  destruct (parseInt_of_toString z) as [H10 H0]. split; assumption.
Qed.

Lemma ofZ_inj (a b : Z) : Js.ofZ a = Js.ofZ b -> a = b.
Proof. unfold Js.ofZ, inject_Z. now intros [= ->]. Qed.

Lemma toString_inj (a b : Z) : Js.toString a = Js.toString b -> a = b.
Proof.
  intros H. apply ofZ_inj.
  destruct (parseInt_of_toString a) as [Ha _].
  destruct (parseInt_of_toString b) as [Hb _].
  rewrite <- Ha, <- Hb, H. reflexivity.
Qed.

(** ** More on the placeholders *)

Lemma range_In (start : Z) (k : nat) (i : Z) :
  In i (range start k) <-> start <= i < start + Z.of_nat k.
Proof.
  revert start. induction k as [|k IH]; intros start; simpl range.
  - simpl. lia.
  - simpl In. rewrite IH. lia.
Qed.

Lemma range_NoDup (start : Z) (k : nat) : NoDup (range start k).
Proof.
  revert start. induction k as [|k IH]; intros start; simpl; constructor.
  - rewrite range_In. lia.
  - apply IH.
Qed.

Lemma NoDup_map_injective {A B} (f : A -> B) (l : list A) :
  (forall a b, f a = f b -> a = b) -> NoDup l -> NoDup (map f l).
Proof.
  intros Hf Hl. induction Hl as [|a l Ha Hl IH]; simpl; constructor; auto.
  intros Hin. apply in_map_iff in Hin. destruct Hin as (b & Hb & Hin).
  apply Hf in Hb. now subst.
Qed.

Lemma generatePlaceholderDetections_cases (count : Js.JsNum) :
  MLService.generatePlaceholderDetections count
  = match count with
    | Js.Fin q => grid (Qceiling q)
    | _ => []
    end.
Proof.
  destruct count as [|[|]|q]; try reflexivity.
  apply generatePlaceholderDetections_Fin.
Qed.

Lemma placeholders_NoDup (count : Js.JsNum) :
  NoDup (map Detection.id (MLService.generatePlaceholderDetections count)).
Proof.
  rewrite generatePlaceholderDetections_cases.
  destruct count as [|s|q]; try constructor.
  unfold grid. rewrite map_map. simpl.
  apply NoDup_map_injective; [|apply range_NoDup].
  intros a b H. injection H as H. now apply toString_inj.
Qed.

(** X11.  The placeholders of any count have pairwise distinct ids, so an
    id picks out at most one of them. *)
Theorem placeholder_ids_distinct (count : Js.JsNum) :
  NoDup (map Detection.id (MLService.generatePlaceholderDetections count))
  /\ forall d d',
       In d (MLService.generatePlaceholderDetections count) ->
       In d' (MLService.generatePlaceholderDetections count) ->
       Detection.id d = Detection.id d' -> d = d'.
Proof.
  pose proof (placeholders_NoDup count) as Hnd. split; [exact Hnd|].
  induction (MLService.generatePlaceholderDetections count) as [|a l IH];
    intros d d' Hd Hd' Hid; [destruct Hd|].
  simpl in Hnd. inversion Hnd as [|? ? Hnotin Hnd']; subst.
  destruct Hd as [<-|Hd]; destruct Hd' as [<-|Hd'].
  - reflexivity.
  - exfalso. apply Hnotin. rewrite Hid. now apply in_map.
  - exfalso. apply Hnotin. rewrite <- Hid. now apply in_map.
  - now apply IH.
Qed.

(** X12.  The number of placeholders is the count for a positive integer
    count and zero for a count that is zero, negative or not a number. *)
Theorem placeholder_number (n : Z) :
  Js.length (MLService.generatePlaceholderDetections (Js.ofZ n)) = Z.max 0 n
  /\ MLService.generatePlaceholderDetections Js.NaN = [].
Proof.
  split; [|reflexivity].
  unfold Js.ofZ. rewrite generatePlaceholderDetections_Fin, Qceiling_Z.
  unfold grid, Js.length. rewrite length_map, range_length. lia.
Qed.

Lemma placeholderAt_bbox_inj (c a b : Z) :
  c <> 0 ->
  Detection.bbox (placeholderAt c a) = Detection.bbox (placeholderAt c b) ->
  a = b.
Proof.
  intros Hc H.
  pose proof (f_equal BoundingBox.x H) as Hx.
  pose proof (f_equal BoundingBox.y H) as Hy.
  cbn [placeholderAt Detection.bbox BoundingBox.x BoundingBox.y] in Hx, Hy.
  apply ofZ_inj in Hx. apply ofZ_inj in Hy.
  rewrite (Z.div_mod a c), (Z.div_mod b c) by exact Hc.
  lia.
Qed.

Lemma grid_boxes_NoDup (n : Z) : NoDup (map Detection.bbox (grid n)).
Proof.
  unfold grid. destruct (Z.le_gt_cases n 0) as [Hle|Hgt].
  - replace (Z.to_nat n) with 0%nat by lia. constructor.
  - destruct (ceil_sqrt_bounds n ltac:(lia)) as [Hc _].
    rewrite map_map. apply NoDup_map_injective; [|apply range_NoDup].
    intros a b H. apply (placeholderAt_bbox_inj (Js.ceil_sqrt n)); [lia|exact H].
Qed.

(** X13.  No two placeholders that [generatePlaceholderDetections] returns
    for an integer count (up to 2^52) share a position: the bounding boxes
    of the returned list are pairwise distinct, so detections at different
    indices of the list have different boxes. *)
Theorem placeholder_positions_distinct (n : Z) :
  n <= Js.exactUpTo ->
  let placeholders := MLService.generatePlaceholderDetections (Js.ofZ n) in
  NoDup (map Detection.bbox placeholders)
  /\ forall (i j : nat) (d d' : Detection.t),
       nth_error placeholders i = Some d ->
       nth_error placeholders j = Some d' ->
       i <> j ->
       Detection.bbox d <> Detection.bbox d'.
Proof.
  intros _ placeholders.
  assert (Hnd : NoDup (map Detection.bbox placeholders)).
  { subst placeholders. unfold Js.ofZ.
    rewrite generatePlaceholderDetections_Fin, Qceiling_Z.
    apply grid_boxes_NoDup. }
  split; [exact Hnd|].
  intros i j d d' Hi Hj Hij Hbox. apply Hij.
  rewrite NoDup_nth_error in Hnd. apply Hnd.
  - rewrite length_map. apply nth_error_Some. congruence.
  - rewrite !nth_error_map, Hi, Hj. simpl. now rewrite Hbox.
Qed.

Lemma placeholder_positions_distinct_witness :
  NoDup (map Detection.bbox (MLService.generatePlaceholderDetections (Js.ofZ 10))).
Proof.
  destruct (placeholder_positions_distinct 10) as [H _].
  - apply Z.leb_le. reflexivity.
  - exact H.
Defined.

(** X14.  Removing one of the placeholders of a count removes exactly that
    placeholder and adds 1 to the corrections; in Auto mode the count field
    is left alone. *)
Theorem removeDetection_placeholder (count : Js.JsNum)
    (l1 l2 : list Detection.t) (d : Detection.t) (s : ReviewScreen.State) :
  ReviewScreen.detections s = MLService.generatePlaceholderDetections count ->
  ReviewScreen.detections s = l1 ++ d :: l2 ->
  let s' := ReviewScreen.removeDetection (Detection.id d) s in
  ReviewScreen.detections s' = l1 ++ l2
  /\ ReviewScreen.manualCorrections s' = ReviewScreen.manualCorrections s + 1
  /\ (ReviewScreen.mode s = ReviewScreen.Auto ->
      ReviewScreen.manualCountInput s' = ReviewScreen.manualCountInput s
      /\ ReviewScreen.mode s' = ReviewScreen.Auto).
Proof.
  intros Hgen Hsplit s'.
  assert (Hnd : NoDup (map Detection.id (l1 ++ d :: l2))).
  { rewrite <- Hsplit, Hgen. apply placeholders_NoDup. }
  subst s'. unfold ReviewScreen.removeDetection.
  rewrite Hsplit, (filter_out_unique _ _ _ Hnd).
  split; [|split].
  - destruct (ReviewScreen.mode s); reflexivity.
  - destruct (ReviewScreen.mode s); reflexivity.
  - intros Hm. rewrite Hm. simpl. split; [reflexivity|exact Hm].
Qed.

Lemma removeDetection_placeholder_witness :
  Js.length
    (ReviewScreen.detections
       (ReviewScreen.removeDetection "obj_1"
          (ReviewScreen.setDetections
             (MLService.generatePlaceholderDetections (Js.ofZ 3))
             (ReviewScreen.setMode ReviewScreen.Auto ReviewScreen.initialState))))
  = 2.
Proof.
  destruct (removeDetection_placeholder (Js.ofZ 3)
              [placeholderAt 2 0] [placeholderAt 2 2] (placeholderAt 2 1)
              (ReviewScreen.setDetections
                 (MLService.generatePlaceholderDetections (Js.ofZ 3))
                 (ReviewScreen.setMode ReviewScreen.Auto
                    ReviewScreen.initialState)))
    as (H & _).
  - reflexivity.
  - vm_compute. reflexivity.
  - change (Detection.id (placeholderAt 2 1)) with "obj_1" in H.
    rewrite H. reflexivity.
Defined.

(** ** Sequences of edits in Manual mode *)

Section Edits.

Variable screenWidth : Js.JsNum.

Lemma edit_manual (e : Edit) (s : ReviewScreen.State) :
  ReviewScreen.mode s = ReviewScreen.Manual ->
  ReviewScreen.isProcessing s = false ->
  let s' := edit screenWidth e s in
  ReviewScreen.mode s' = ReviewScreen.Manual
  /\ ReviewScreen.isProcessing s' = false
  /\ ReviewScreen.manualCorrections s' = ReviewScreen.manualCorrections s + 1
  /\ ReviewScreen.manualCountInput s'
     = Js.toString (Js.length (ReviewScreen.detections s'))
  /\ Js.length (ReviewScreen.detections s')
     <= Js.length (ReviewScreen.detections s) + 1.
Proof.
  intros Hm Hp. destruct e as [event now random|id]; cbn [edit].
  - rewrite (handleImagePress_manual screenWidth event now random s Hm Hp).
    cbn. rewrite length_snoc. repeat split; lia.
  - unfold ReviewScreen.removeDetection. rewrite Hm. cbn.
    repeat split; try assumption.
    unfold Js.length.
    pose proof (filter_length_le
                  (fun d => negb (String.eqb (Detection.id d) id))
                  (ReviewScreen.detections s)).
    lia.
Qed.

Lemma edits_snoc (es : list Edit) (e : Edit) (s : ReviewScreen.State) :
  edits screenWidth (es ++ [e]) s = edit screenWidth e (edits screenWidth es s).
Proof. unfold edits. now rewrite fold_left_app. Qed.

Lemma edits_manual (es : list Edit) (s : ReviewScreen.State) :
  ReviewScreen.mode s = ReviewScreen.Manual ->
  ReviewScreen.isProcessing s = false ->
  let s' := edits screenWidth es s in
  ReviewScreen.mode s' = ReviewScreen.Manual
  /\ ReviewScreen.isProcessing s' = false
  /\ ReviewScreen.manualCorrections s'
     = ReviewScreen.manualCorrections s + Js.length es
  /\ Js.length (ReviewScreen.detections s')
     <= Js.length (ReviewScreen.detections s) + Js.length es.
Proof.
  intros Hm Hp. induction es as [|e es IH] using rev_ind.
  - cbn. repeat split; try assumption; lia.
  - cbv zeta in *. rewrite edits_snoc.
    destruct IH as (Hm' & Hp' & Hc' & Hl').
    destruct (edit_manual e _ Hm' Hp') as (Hm'' & Hp'' & Hc'' & _ & Hl'').
    rewrite length_snoc. repeat split; try assumption; lia.
Qed.

Lemma edits_field (es : list Edit) (s : ReviewScreen.State) :
  ReviewScreen.mode s = ReviewScreen.Manual ->
  ReviewScreen.isProcessing s = false ->
  es <> [] ->
  ReviewScreen.manualCountInput (edits screenWidth es s)
  = Js.toString (Js.length (ReviewScreen.detections (edits screenWidth es s))).
Proof.
  intros Hm Hp Hes.
  destruct (exists_last Hes) as (es' & e & ->).
  rewrite edits_snoc.
  destruct (edits_manual es' s Hm Hp) as (Hm'' & Hp'' & _).
  destruct (edit_manual e _ Hm'' Hp'') as (_ & _ & _ & Hfield & _).
  exact Hfield.
Qed.

(** X15.  In Manual mode and outside a request, after any non-empty
    sequence of taps and removals the count field shows the number of
    detections, the corrections have grown by the number of edits (a
    removal counts even when it removes nothing), and the review is still
    in Manual mode. *)
Theorem edits_keep_field_in_step (es : list Edit) (s : ReviewScreen.State) :
  ReviewScreen.mode s = ReviewScreen.Manual ->
  ReviewScreen.isProcessing s = false ->
  es <> [] ->
  let s' := edits screenWidth es s in
  ReviewScreen.manualCountInput s'
  = Js.toString (Js.length (ReviewScreen.detections s'))
  /\ ReviewScreen.manualCorrections s'
     = ReviewScreen.manualCorrections s + Js.length es
  /\ ReviewScreen.mode s' = ReviewScreen.Manual
  /\ ReviewScreen.isProcessing s' = false.
Proof.
  intros Hm Hp Hes s'. subst s'.
  destruct (edits_manual es s Hm Hp) as (Hm' & Hp' & Hc' & _).
  repeat split; try assumption.
  now apply edits_field.
Qed.

End Edits.

Lemma edits_keep_field_in_step_witness :
  let s' :=
    edits (Js.ofZ 390)
      [Tap (tap 10 10) 1700000000005 "0.1"; Remove "nothing";
       Remove "manual_1700000000001_0.75"]
      twoTaps in
  ReviewScreen.manualCountInput s'
  = Js.toString (Js.length (ReviewScreen.detections s'))
  /\ ReviewScreen.manualCorrections s' = ReviewScreen.manualCorrections twoTaps + 3
  /\ ReviewScreen.mode s' = ReviewScreen.Manual
  /\ ReviewScreen.isProcessing s' = false.
Proof.
  apply (edits_keep_field_in_step (Js.ofZ 390)
           [Tap (tap 10 10) 1700000000005 "0.1"; Remove "nothing";
            Remove "manual_1700000000001_0.75"] twoTaps);
    [reflexivity|reflexivity|discriminate].
Defined.

(** ** The count field and the detection list *)

Lemma setManualCountInput_same (s : ReviewScreen.State) :
  ReviewScreen.setManualCountInput (ReviewScreen.manualCountInput s) s = s.
Proof. now destruct s. Qed.

(** X16.  A count field that shows the number of detections can be fed
    back into [handleManualCountChange] without any effect: the override
    does not fire on the text that the taps themselves produce. *)
Theorem synced_field_is_stable (s : ReviewScreen.State) :
  ReviewScreen.manualCountInput s
  = Js.toString (Js.length (ReviewScreen.detections s)) ->
  ReviewScreen.handleManualCountChange (ReviewScreen.manualCountInput s) s = s.
Proof.
  intros Hfield.
  destruct (parseInt_of_toString (Js.length (ReviewScreen.detections s)))
    as [_ Hparse].
  rewrite <- Hfield in Hparse.
  rewrite (handleManualCountChange_number _ _ _ Hparse).
  rewrite Z.eqb_refl, andb_false_r.
  apply setManualCountInput_same.
Qed.

Lemma synced_field_is_stable_witness :
  ReviewScreen.handleManualCountChange (ReviewScreen.manualCountInput twoTaps)
    twoTaps = twoTaps.
Proof.
  apply (synced_field_is_stable twoTaps). reflexivity.
Defined.

(** ** Saving the count *)

Lemma addImageToSession_stored (sessionId imagePath : string) (count : Z)
    (detections : list Detection.t) (now : Z) (date : string)
    (st : Store) (s : Session.t) :
  lookup sessionId st = Some s ->
  fst (addImageToSession sessionId imagePath count detections now date st)
  = Js.Ok tt
  /\ lookup sessionId
       (snd (addImageToSession sessionId imagePath count detections now date st))
     = Some (withImages s
               (Session.images s
                ++ [newImage imagePath count detections now date])
               (countSum (Session.images s) + count)).
Proof.
  intros E. rewrite addImageToSession_run, E.
  pose proof (lookup_id _ _ _ E) as Hid.
  set (s' := retotalled s
               (Session.images s
                ++ [ImageCount.mk ("img_" +++ Js.toString now) imagePath count
                      date 0 detections])).
  assert (Es : lookup (Session.id s') st = Some s) by (simpl; now rewrite Hid).
  split.
  - destruct (updateSession_effect _ _ _ Es) as (l1 & l2 & _ & Hrun).
    now rewrite Hrun.
  - replace sessionId with (Session.id s') by exact Hid.
    rewrite (updateSession_lookup _ _ _ Es). f_equal.
    subst s'. unfold retotalled, withImages, newImage. f_equal.
    rewrite sumCounts_countSum, countSum_app. simpl. lia.
Qed.

Lemma integerOf_ofZ (n : Z) : Js.integerOf (Js.ofZ n) = n.
Proof. unfold Js.integerOf, Js.ofZ. apply Qfloor_Z. Qed.

Lemma resolvedCount_integer (s : ReviewScreen.State) :
  ReviewScreen.resolvedCount s
  = Js.ofZ (Js.integerOf (ReviewScreen.resolvedCount s)).
Proof.
  unfold ReviewScreen.resolvedCount. destruct (ReviewScreen.mode s).
  - now rewrite integerOf_ofZ.
  - destruct (parseInt_cases (ReviewScreen.manualCountInput s) 0) as [H|[n H]];
      rewrite H.
    + reflexivity.
    + now rewrite or_ofZ_zero, integerOf_ofZ.
Qed.

Lemma saveCount_run (sessionId photoPath : string) (now : Z) (date : string)
    (w : ReviewScreen.World) (st : Store) :
  let s := ReviewScreen.ui w in
  let n := Js.integerOf (ReviewScreen.resolvedCount s) in
  ReviewScreen.saveCount sessionId photoPath now date w st
  = if refuses s
    then (ReviewScreen.showAlert "Error" "Please enter a count value" w, st)
    else
      match lookup sessionId st with
      | Some _ =>
          (ReviewScreen.showAlert "Count Saved"
             (Js.toString n +++ " " +++ ReviewScreen.objectType s +++ " counted")
             w,
           snd (addImageToSession sessionId photoPath n
                  (ReviewScreen.detections s) now date st))
      | None => (ReviewScreen.showAlert "Error" "Failed to save count" w, st)
      end.
Proof.
  intros s n. subst s n. unfold ReviewScreen.saveCount, refuses.
  assert (Heq : Js.strict_eq (ReviewScreen.resolvedCount (ReviewScreen.ui w))
                  (Js.ofZ 0)
                = (Js.integerOf (ReviewScreen.resolvedCount (ReviewScreen.ui w))
                   =? 0)).
  { rewrite (resolvedCount_integer (ReviewScreen.ui w)) at 1.
    apply strict_eq_ofZ. }
  rewrite Heq.
  assert (Hadd : forall k,
             (let '(r, st') :=
                addImageToSession sessionId photoPath k
                  (ReviewScreen.detections (ReviewScreen.ui w)) now date st in
              match r with
              | Js.Ok _ =>
                  (ReviewScreen.showAlert "Count Saved"
                     (Js.toString k +++ " "
                      +++ ReviewScreen.objectType (ReviewScreen.ui w)
                      +++ " counted") w, st')
              | Js.Throw _ =>
                  (ReviewScreen.showAlert "Error" "Failed to save count" w, st')
              end)
             = match lookup sessionId st with
               | Some _ =>
                   (ReviewScreen.showAlert "Count Saved"
                      (Js.toString k +++ " "
                       +++ ReviewScreen.objectType (ReviewScreen.ui w)
                       +++ " counted") w,
                    snd (addImageToSession sessionId photoPath k
                           (ReviewScreen.detections (ReviewScreen.ui w))
                           now date st))
               | None =>
                   (ReviewScreen.showAlert "Error" "Failed to save count" w, st)
               end).
  { intros k. destruct (lookup sessionId st) as [sess|] eqn:E.
    - destruct (addImageToSession_stored sessionId photoPath k
                  (ReviewScreen.detections (ReviewScreen.ui w)) now date st
                  sess E) as [Hok _].
      destruct (addImageToSession _ _ _ _ _ _ st) as [r st']. simpl in *.
      now rewrite Hok.
    - now rewrite addImageToSession_run, E. }
  destruct (ReviewScreen.mode (ReviewScreen.ui w));
    [|destruct (_ =? 0)]; try reflexivity; apply Hadd.
Qed.

(** X17.  [saveCount] never throws and never changes the review itself.
    In Manual mode with a count of 0 (the field is empty, unreadable or
    zero) it only asks for a count; otherwise, for a session that is not
    stored it reports the failure and writes nothing, and for a stored
    session it appends an image with the resolved count and the current
    detections and raises the total by that count.  The resolved count is
    the number of detections in Auto mode (zero included) and the integer
    read from the field in Manual mode (a negative one included). *)
Theorem saveCount_outcome (sessionId photoPath : string) (now : Z)
    (date : string) (w : ReviewScreen.World) (st : Store) :
  let s := ReviewScreen.ui w in
  let n := Js.integerOf (ReviewScreen.resolvedCount s) in
  let run := ReviewScreen.saveCount sessionId photoPath now date w st in
  ReviewScreen.ui (fst run) = s
  /\ (ReviewScreen.mode s = ReviewScreen.Auto ->
      n = Js.length (ReviewScreen.detections s))
  /\ (ReviewScreen.mode s = ReviewScreen.Manual ->
      forall k, Js.parseInt (ReviewScreen.manualCountInput s) 0 = Js.ofZ k ->
                n = k)
  /\ (ReviewScreen.mode s = ReviewScreen.Manual -> n = 0 ->
      run = (ReviewScreen.showAlert "Error" "Please enter a count value" w, st))
  /\ (ReviewScreen.mode s = ReviewScreen.Auto \/ n <> 0 ->
      match lookup sessionId st with
      | None =>
          run = (ReviewScreen.showAlert "Error" "Failed to save count" w, st)
      | Some session =>
          fst run
          = ReviewScreen.showAlert "Count Saved"
              (Js.toString n +++ " " +++ ReviewScreen.objectType s
               +++ " counted") w
          /\ lookup sessionId (snd run)
             = Some (withImages session
                       (Session.images session
                        ++ [newImage photoPath n (ReviewScreen.detections s)
                              now date])
                       (countSum (Session.images session) + n))
      end).
Proof.
  intros s n run.
  pose proof (saveCount_run sessionId photoPath now date w st) as Hrun.
  cbv zeta in Hrun. fold s n run in Hrun.
  split; [|split; [|split; [|split]]].
  - rewrite Hrun. destruct (refuses s); [reflexivity|].
    destruct (lookup sessionId st); reflexivity.
  - intros Hm. subst n. unfold ReviewScreen.resolvedCount.
    rewrite Hm. apply integerOf_ofZ.
  - intros Hm k Hk. subst n. unfold ReviewScreen.resolvedCount.
    rewrite Hm, Hk, or_ofZ_zero. apply integerOf_ofZ.
  - intros Hm Hn. rewrite Hrun. unfold refuses. fold n.
    rewrite Hm, Hn. reflexivity.
  - intros Hcase. rewrite Hrun.
    assert (Href : refuses s = false).
    { unfold refuses. fold n. destruct (ReviewScreen.mode s) eqn:Hm;
        [reflexivity|]. apply Z.eqb_neq. destruct Hcase; [discriminate|assumption]. }
    rewrite Href.
    destruct (lookup sessionId st) as [session|] eqn:E; [|reflexivity].
    split; [reflexivity|]. simpl.
    now apply addImageToSession_stored.
Qed.

Lemma saveCount_outcome_witness :
  ReviewScreen.saveCount "session_1700000000000" "file:///c.jpg" 1700000003000
    "2023-11-14T22:13:23.000Z"
    (ReviewScreen.mkWorld
       (ReviewScreen.handleManualCountChange "" twoTaps)
       (MLService.mk false "") [])
    (Some [shelf])
  = (ReviewScreen.showAlert "Error" "Please enter a count value"
       (ReviewScreen.mkWorld
          (ReviewScreen.handleManualCountChange "" twoTaps)
          (MLService.mk false "") []),
     Some [shelf])
  /\ lookup "session_1700000000000"
       (snd (ReviewScreen.saveCount "session_1700000000000" "file:///c.jpg"
               1700000003000 "2023-11-14T22:13:23.000Z"
               (ReviewScreen.mkWorld twoTaps (MLService.mk false "") [])
               (Some [shelf])))
     = Some (withImages shelf
               (Session.images shelf
                ++ [newImage "file:///c.jpg" 2 (ReviewScreen.detections twoTaps)
                      1700000003000 "2023-11-14T22:13:23.000Z"])
               (countSum (Session.images shelf) + 2)).
Proof.
  split.
  - destruct (saveCount_outcome "session_1700000000000" "file:///c.jpg"
                1700000003000 "2023-11-14T22:13:23.000Z"
                (ReviewScreen.mkWorld
                   (ReviewScreen.handleManualCountChange "" twoTaps)
                   (MLService.mk false "") [])
                (Some [shelf])) as (_ & _ & _ & H & _).
    apply H; reflexivity.
  - destruct (saveCount_outcome "session_1700000000000" "file:///c.jpg"
                1700000003000 "2023-11-14T22:13:23.000Z"
                (ReviewScreen.mkWorld twoTaps (MLService.mk false "") [])
                (Some [shelf])) as (_ & _ & _ & _ & H).
    assert (Hcase : ReviewScreen.mode twoTaps = ReviewScreen.Auto
                    \/ Js.integerOf (ReviewScreen.resolvedCount twoTaps) <> 0)
      by (right; vm_compute; discriminate).
    specialize (H Hcase).
    change (lookup "session_1700000000000" (Some [shelf])) with (Some shelf) in H.
    destruct H as [_ H]. exact H.
Defined.

(** X18.  After taps and removals in Manual mode, saving stores exactly
    what the image shows: when detections are left and the session is
    stored, the saved image carries those detections and their number as
    its count; when none is left, nothing is saved. *)
Theorem saveCount_after_edits (screenWidth : Js.JsNum) (es : list Edit)
    (s0 : ReviewScreen.State) (w : ReviewScreen.World)
    (sessionId photoPath : string) (now : Z) (date : string) (st : Store) :
  ReviewScreen.mode s0 = ReviewScreen.Manual ->
  ReviewScreen.isProcessing s0 = false ->
  es <> [] ->
  ReviewScreen.ui w = edits screenWidth es s0 ->
  let shown := ReviewScreen.detections (ReviewScreen.ui w) in
  let run := ReviewScreen.saveCount sessionId photoPath now date w st in
  (shown = [] -> snd run = st)
  /\ (shown <> [] ->
      forall session, lookup sessionId st = Some session ->
      lookup sessionId (snd run)
      = Some (withImages session
                (Session.images session
                 ++ [newImage photoPath (Js.length shown) shown now date])
                (countSum (Session.images session) + Js.length shown))).
Proof.
  intros Hm Hp Hes Hui shown run.
  pose proof (edits_field screenWidth es s0 Hm Hp Hes) as Hfield.
  destruct (edits_manual screenWidth es s0 Hm Hp) as (Hm' & _).
  rewrite <- Hui in Hfield, Hm'. fold shown in Hfield.
  assert (Hn : Js.integerOf (ReviewScreen.resolvedCount (ReviewScreen.ui w))
               = Js.length shown).
  { unfold ReviewScreen.resolvedCount. rewrite Hm', Hfield.
    destruct (parseInt_of_toString (Js.length shown)) as [_ ->].
    now rewrite or_ofZ_zero, integerOf_ofZ. }
  pose proof (saveCount_run sessionId photoPath now date w st) as Hrun.
  cbv zeta in Hrun. fold run in Hrun. rewrite Hn in Hrun.
  unfold refuses in Hrun. rewrite Hm', Hn in Hrun.
  split.
  - intros Hnil. rewrite Hrun, Hnil. reflexivity.
  - intros Hne session E. rewrite Hrun.
    assert (Hpos : (Js.length shown =? 0) = false).
    { apply Z.eqb_neq. unfold Js.length. destruct shown; [congruence|simpl; lia]. }
    rewrite Hpos, E. simpl. fold shown.
    now apply addImageToSession_stored.
Qed.

Lemma saveCount_after_edits_witness :
  lookup "session_1700000000000"
    (snd (ReviewScreen.saveCount "session_1700000000000" "file:///c.jpg"
            1700000003000 "2023-11-14T22:13:23.000Z"
            (ReviewScreen.mkWorld twoTaps (MLService.mk false "") [])
            (Some [shelf])))
  = Some (withImages shelf
            (Session.images shelf
             ++ [newImage "file:///c.jpg"
                   (Js.length (ReviewScreen.detections twoTaps))
                   (ReviewScreen.detections twoTaps)
                   1700000003000 "2023-11-14T22:13:23.000Z"])
            (countSum (Session.images shelf)
             + Js.length (ReviewScreen.detections twoTaps))).
Proof.
  destruct (saveCount_after_edits (Js.ofZ 390)
              [Tap (tap 100 80) 1700000000001 "0.75";
               Tap (tap 200 120) 1700000000002 "0.25"]
              (ReviewScreen.setupImage_onSize (Js.ofZ 390) (Js.ofZ 3000)
                 (Js.ofZ 4000) ReviewScreen.initialState)
              (ReviewScreen.mkWorld twoTaps (MLService.mk false "") [])
              "session_1700000000000" "file:///c.jpg" 1700000003000
              "2023-11-14T22:13:23.000Z" (Some [shelf])) as [_ H].
  - reflexivity.
  - reflexivity.
  - discriminate.
  - reflexivity.
  - apply (H ltac:(vm_compute; discriminate) shelf). reflexivity.
Defined.

(** ** A detection request, whatever its outcome *)

Lemma detectObjects_shape (imagePath objectType : string)
    (remote : MLService.Remote) (ml : MLService.State) :
  exists detections shown,
    MLService.detectObjects imagePath objectType remote ml
    = (Js.Ok detections, MLService.mk true (MLService.apiKey ml), shown)
    /\ (forall a, In a shown ->
          MLService.title a = "API Key Required"
          \/ MLService.title a = "Detection Error").
Proof.
  unfold MLService.detectObjects.
  assert (Hml : (if negb (MLService.isReady ml) then MLService.initialize ml else ml)
                = MLService.mk true (MLService.apiKey ml)).
  { destruct ml as [[|] key]; reflexivity. }
  rewrite Hml; simpl.
  destruct (Js.truthy_string (MLService.apiKey ml)); simpl.
  - match goal with
    | |- context [match ?attempt with Js.Ok _ => _ | Js.Throw _ => _ end] =>
        destruct attempt
    end.
    + eexists. exists []. split; [reflexivity|]. intros x [].
    + eexists. eexists. split; [reflexivity|].
      intros x [<-|[]]. now right.
  - eexists. eexists. split; [reflexivity|].
    intros x [<-|[]]. now left.
Qed.

(** X19.  Whatever the detector does, a request ends with the busy flag
    off and leaves the mode, the corrections and the count field as they
    were; the service never throws, so the "Processing Error" alert is
    never shown, and the only alerts a request adds are "API Key Required",
    "Detection Error" and "No Objects Detected". *)
Theorem processImageWithAI_always (photoPath : string)
    (remote : MLService.Remote) (w : ReviewScreen.World) :
  let w' := ReviewScreen.processImageWithAI photoPath remote w in
  ReviewScreen.isProcessing (ReviewScreen.ui w') = false
  /\ ReviewScreen.mode (ReviewScreen.ui w') = ReviewScreen.mode (ReviewScreen.ui w)
  /\ ReviewScreen.manualCorrections (ReviewScreen.ui w')
     = ReviewScreen.manualCorrections (ReviewScreen.ui w)
  /\ ReviewScreen.manualCountInput (ReviewScreen.ui w')
     = ReviewScreen.manualCountInput (ReviewScreen.ui w)
  /\ exists added,
       ReviewScreen.alerts w' = ReviewScreen.alerts w ++ added
       /\ forall a, In a added ->
            MLService.title a = "API Key Required"
            \/ MLService.title a = "Detection Error"
            \/ MLService.title a = "No Objects Detected".
Proof.
  intros w'. subst w'. unfold ReviewScreen.processImageWithAI.
  destruct (Js.truthy_string (ReviewScreen.apiKey (ReviewScreen.ui w))); simpl.
  - destruct (detectObjects_shape photoPath
                (ReviewScreen.objectType (ReviewScreen.ui w)) remote
                (ReviewScreen.ml w)) as (detections & shown & Hrun & Hshown).
    rewrite Hrun. simpl. repeat split.
    eexists. split; [reflexivity|].
    intros a Ha. apply in_app_or in Ha. destruct Ha as [Ha|Ha].
    + destruct (Hshown a Ha); tauto.
    + destruct (Js.length detections =? 0); [|destruct Ha].
      destruct Ha as [<-|[]]. right. right. reflexivity.
  - repeat split. exists []. split; [now rewrite app_nil_r|]. intros a [].
Qed.

(** X20.  With a credential in the screen and in the service, an image
    file that can be read and a response whose text reads as the integer
    [n] of size up to 2^52 (where the code reads and computes as the model
    does), the request replaces the detections by the placeholders of [n],
    records their number ([n], or 0 for a negative [n]) as the automatic
    count, and shows "No Objects Detected" exactly when that number is 0. *)
Theorem processImageWithAI_answer (photoPath base64 content : string) (n : Z)
    (remote : MLService.Remote) (w : ReviewScreen.World) :
  ready w ->
  MLService.fileExists remote = true ->
  MLService.readAsBase64 remote = Js.Ok base64 ->
  MLService.completion remote = MLService.Content content ->
  Js.parseInt (Js.trim content) 10 = Js.ofZ n ->
  Z.abs n <= Js.exactUpTo ->
  let w' := ReviewScreen.processImageWithAI photoPath remote w in
  ReviewScreen.detections (ReviewScreen.ui w') = grid n
  /\ Js.length (ReviewScreen.detections (ReviewScreen.ui w')) = Z.max 0 n
  /\ ReviewScreen.autoCount (ReviewScreen.ui w') = Some (Z.max 0 n)
  /\ ReviewScreen.alerts w'
     = ReviewScreen.alerts w
       ++ (if 0 <? n then []
           else [MLService.mkAlert "No Objects Detected"
                   "Try manual counting mode or adjust the lighting and retake the photo."]).
Proof.
  intros [Hkey Hmlkey] Hfile Hread Hcontent Hparse _ w'. subst w'.
  assert (Hlen : Js.length (grid n) = Z.max 0 n).
  { unfold grid, Js.length. rewrite length_map, range_length. lia. }
  unfold ReviewScreen.processImageWithAI.
  destruct (Js.truthy_string (ReviewScreen.apiKey (ReviewScreen.ui w))) eqn:Ek;
    [|apply truthy_string_empty in Ek; contradiction].
  simpl. unfold MLService.detectObjects.
  assert (Hml : (if negb (MLService.isReady (ReviewScreen.ml w))
                 then MLService.initialize (ReviewScreen.ml w)
                 else ReviewScreen.ml w)
                = MLService.mk true (MLService.apiKey (ReviewScreen.ml w))).
  { destruct (ReviewScreen.ml w) as [[|] key]; reflexivity. }
  rewrite Hml. simpl.
  destruct (Js.truthy_string (MLService.apiKey (ReviewScreen.ml w))) eqn:Emk;
    [|apply truthy_string_empty in Emk; contradiction].
  simpl. rewrite Hfile, Hread. simpl.
  unfold MLService.callOpenAIVision. rewrite Hcontent. simpl.
  rewrite extractCount_parseInt, Hparse.
  assert (Hgen : MLService.generatePlaceholderDetections (Js.ofZ n) = grid n).
  { unfold Js.ofZ. now rewrite generatePlaceholderDetections_Fin, Qceiling_Z. }
  rewrite !Hgen. simpl. rewrite !Hlen. repeat split.
  f_equal.
  destruct (Z.ltb_spec 0 n); destruct (Z.eqb_spec (Z.max 0 n) 0);
    try reflexivity; lia.
Qed.

Lemma processImageWithAI_answer_witness :
  let w' := ReviewScreen.processImageWithAI "file:///a.jpg" (answers " 7 ") keyed in
  ReviewScreen.detections (ReviewScreen.ui w') = grid 7
  /\ Js.length (ReviewScreen.detections (ReviewScreen.ui w')) = Z.max 0 7
  /\ ReviewScreen.autoCount (ReviewScreen.ui w') = Some (Z.max 0 7)
  /\ ReviewScreen.alerts w' = ReviewScreen.alerts keyed ++ [].
Proof.
  apply (processImageWithAI_answer "file:///a.jpg" "aGVsbG8=" " 7 " 7
           (answers " 7 ") keyed).
  - split; discriminate.
  - reflexivity.
  - reflexivity.
  - reflexivity.
  - reflexivity.
  - apply Z.leb_le. reflexivity.
Defined.

(** X21.  A response whose text does not read as an integer is handled as
    a count of zero detections: no placeholder, an automatic count of 0 and
    the "No Objects Detected" alert, without any error alert. *)
Theorem processImageWithAI_unreadable (photoPath base64 content : string)
    (remote : MLService.Remote) (w : ReviewScreen.World) :
  ready w ->
  MLService.fileExists remote = true ->
  MLService.readAsBase64 remote = Js.Ok base64 ->
  MLService.completion remote = MLService.Content content ->
  Js.parseInt (Js.trim content) 10 = Js.NaN ->
  let w' := ReviewScreen.processImageWithAI photoPath remote w in
  ReviewScreen.detections (ReviewScreen.ui w') = []
  /\ ReviewScreen.autoCount (ReviewScreen.ui w') = Some 0
  /\ ReviewScreen.alerts w'
     = ReviewScreen.alerts w
       ++ [MLService.mkAlert "No Objects Detected"
             "Try manual counting mode or adjust the lighting and retake the photo."].
Proof.
  intros [Hkey Hmlkey] Hfile Hread Hcontent Hparse w'. subst w'.
  unfold ReviewScreen.processImageWithAI.
  destruct (Js.truthy_string (ReviewScreen.apiKey (ReviewScreen.ui w))) eqn:Ek;
    [|apply truthy_string_empty in Ek; contradiction].
  simpl. unfold MLService.detectObjects.
  assert (Hml : (if negb (MLService.isReady (ReviewScreen.ml w))
                 then MLService.initialize (ReviewScreen.ml w)
                 else ReviewScreen.ml w)
                = MLService.mk true (MLService.apiKey (ReviewScreen.ml w))).
  { destruct (ReviewScreen.ml w) as [[|] key]; reflexivity. }
  rewrite Hml. simpl.
  destruct (Js.truthy_string (MLService.apiKey (ReviewScreen.ml w))) eqn:Emk;
    [|apply truthy_string_empty in Emk; contradiction].
  simpl. rewrite Hfile, Hread. simpl.
  unfold MLService.callOpenAIVision. rewrite Hcontent. simpl.
  rewrite extractCount_parseInt, Hparse.
  change (MLService.generatePlaceholderDetections Js.NaN) with (@nil Detection.t).
  simpl. repeat split.
Qed.

Lemma processImageWithAI_unreadable_witness :
  let w' :=
    ReviewScreen.processImageWithAI "file:///a.jpg" (answers "roughly 12") keyed in
  ReviewScreen.detections (ReviewScreen.ui w') = []
  /\ ReviewScreen.autoCount (ReviewScreen.ui w') = Some 0
  /\ ReviewScreen.alerts w'
     = ReviewScreen.alerts keyed
       ++ [MLService.mkAlert "No Objects Detected"
             "Try manual counting mode or adjust the lighting and retake the photo."].
Proof.
  apply (processImageWithAI_unreadable "file:///a.jpg" "aGVsbG8=" "roughly 12"
           (answers "roughly 12") keyed).
  - split; discriminate.
  - reflexivity.
  - reflexivity.
  - reflexivity.
  - reflexivity.
Defined.

(** ** The credential *)

Lemma detectObjects_keyed (imagePath objectType : string)
    (remote : MLService.Remote) (ml : MLService.State) :
  MLService.apiKey ml <> "" ->
  exists detections shown,
    MLService.detectObjects imagePath objectType remote ml
    = (Js.Ok detections, MLService.mk true (MLService.apiKey ml), shown)
    /\ (forall a, In a shown -> MLService.title a = "Detection Error").
Proof.
  intros Hkey. unfold MLService.detectObjects.
  assert (Hml : (if negb (MLService.isReady ml) then MLService.initialize ml else ml)
                = MLService.mk true (MLService.apiKey ml)).
  { destruct ml as [[|] key]; reflexivity. }
  rewrite Hml; simpl.
  destruct (Js.truthy_string (MLService.apiKey ml)) eqn:Ek;
    [|apply truthy_string_empty in Ek; contradiction].
  simpl.
  match goal with
  | |- context [match ?attempt with Js.Ok _ => _ | Js.Throw _ => _ end] =>
      destruct attempt
  end.
  - eexists. exists []. split; [reflexivity|]. intros x [].
  - eexists. eexists. split; [reflexivity|]. intros x [<-|[]]. reflexivity.
Qed.

Lemma trim_nonempty (key : string) : Js.trim key <> "" -> key <> "".
Proof. intros H ->. now apply H. Qed.

(** X22.  Saving a credential.  A key that is blank after trimming is
    refused with an alert and nothing is stored.  Any other key is stored
    in the settings beside the unchanged other settings, handed to the
    service and closes the prompt; no "API Key Required" alert follows, and
    a screen that loads the settings later gets the same key for itself
    and for the service. *)
Theorem saveApiKey_round_trip (photoPath : string) (remote : MLService.Remote)
    (item : SettingsItem) (w : ReviewScreen.World) :
  let key := ReviewScreen.apiKey (ReviewScreen.ui w) in
  let run := ReviewScreen.saveApiKey photoPath remote item w in
  (Js.trim key = "" ->
   run = (ReviewScreen.showAlert "Error" "Please enter a valid API key" w, item))
  /\ (Js.trim key <> "" ->
      getSettings (snd run)
      = mkSettings (sensitivity (getSettings item))
          (minObjectSize (getSettings item)) (enableHaptics (getSettings item))
          (enableSound (getSettings item)) (autoSave (getSettings item))
          (theme (getSettings item)) (Some key)
      /\ MLService.apiKey (ReviewScreen.ml (fst run)) = key
      /\ ReviewScreen.showApiKeyInput (ReviewScreen.ui (fst run)) = false
      /\ (forall a, In a (ReviewScreen.alerts (fst run)) ->
            In a (ReviewScreen.alerts w)
            \/ MLService.title a <> "API Key Required")
      /\ (forall w0,
            ReviewScreen.apiKey
              (ReviewScreen.ui (ReviewScreen.loadApiKey (snd run) w0)) = key
            /\ MLService.apiKey
                 (ReviewScreen.ml (ReviewScreen.loadApiKey (snd run) w0)) = key)).
Proof.
  intros key run. subst run. unfold ReviewScreen.saveApiKey. fold key. split.
  - intros ->. reflexivity.
  - intros Hkey. pose proof (trim_nonempty key Hkey) as Hne.
    destruct (Js.trim key) as [|c r] eqn:Et; [congruence|]. simpl negb. cbv iota.
    assert (Hload : forall item' w0,
               openaiApiKey (getSettings item') = Some key ->
               ReviewScreen.apiKey
                 (ReviewScreen.ui (ReviewScreen.loadApiKey item' w0)) = key
               /\ MLService.apiKey
                    (ReviewScreen.ml (ReviewScreen.loadApiKey item' w0)) = key).
    { intros item' w0 Hitem. unfold ReviewScreen.loadApiKey. rewrite Hitem.
      destruct (Js.truthy_string key) eqn:Ek;
        [split; reflexivity|apply truthy_string_empty in Ek; contradiction]. }
    destruct (ReviewScreen.mode (ReviewScreen.ui w)); cbn [fst snd].
    + (* Auto: the request follows *)
      unfold ReviewScreen.processImageWithAI. cbn [ReviewScreen.ui ReviewScreen.ml
        ReviewScreen.alerts].
      change (ReviewScreen.apiKey
                (ReviewScreen.setShowApiKeyInput false (ReviewScreen.ui w)))
        with key.
      destruct (Js.truthy_string key) eqn:Ek;
        [|apply truthy_string_empty in Ek; contradiction].
      cbn [negb].
      destruct (detectObjects_keyed photoPath
                  (ReviewScreen.objectType
                     (ReviewScreen.setShowApiKeyInput false (ReviewScreen.ui w)))
                  remote (MLService.setApiKey key (ReviewScreen.ml w)))
        as (detections & shown & Hrun & Hshown); [exact Hne|].
      rewrite Hrun. cbn -[ReviewScreen.loadApiKey].
      split; [reflexivity|]. split; [reflexivity|]. split; [reflexivity|].
      split; [|intros w0; apply Hload; reflexivity].
      intros a Ha. apply in_app_or in Ha. destruct Ha as [Ha|Ha]; [now left|].
      right. apply in_app_or in Ha. destruct Ha as [Ha|Ha].
      * rewrite (Hshown a Ha). discriminate.
      * destruct (Js.length detections =? 0); [|destruct Ha].
        destruct Ha as [<-|[]]. discriminate.
    + (* Manual *)
      cbn -[ReviewScreen.loadApiKey].
      split; [reflexivity|]. split; [reflexivity|]. split; [reflexivity|].
      split; [intros a Ha; now left|].
      intros w0. apply Hload. reflexivity.
Qed.

Lemma saveApiKey_round_trip_witness :
  MLService.apiKey
    (ReviewScreen.ml
       (fst (ReviewScreen.saveApiKey "file:///a.jpg" offline None keyed)))
  = "sk-test"
  /\ openaiApiKey
       (getSettings
          (snd (ReviewScreen.saveApiKey "file:///a.jpg" offline None keyed)))
     = Some "sk-test".
Proof.
  destruct (saveApiKey_round_trip "file:///a.jpg" offline None keyed) as [_ H].
  destruct (H ltac:(discriminate)) as (Hsettings & Hml & _).
  split; [exact Hml|]. rewrite Hsettings. reflexivity.
Defined.

(** ** Names as the New Session screen stores them *)

Lemma trimStart_list (s : string) :
  list_ascii_of_string (Js.trimStart s)
  = dropWhiteSpace (list_ascii_of_string s).
Proof.
  induction s as [|c s IH]; simpl; [reflexivity|].
  destruct (Js.isWhiteSpace c); [exact IH|reflexivity].
Qed.

Lemma trim_list (s : string) :
  list_ascii_of_string (Js.trim s)
  = rev (dropWhiteSpace (rev (dropWhiteSpace (list_ascii_of_string s)))).
Proof.
  unfold Js.trim, Js.trimEnd, Js.reverse.
  now rewrite list_ascii_of_string_of_list_ascii, trimStart_list,
    list_ascii_of_string_of_list_ascii, trimStart_list.
Qed.

Lemma dropWhiteSpace_head (l : list ascii) :
  match dropWhiteSpace l with
  | [] => True
  | c :: _ => Js.isWhiteSpace c = false
  end.
Proof.
  induction l as [|c l IH]; simpl; [exact I|].
  destruct (Js.isWhiteSpace c) eqn:E; [exact IH|exact E].
Qed.

Lemma dropWhiteSpace_snoc (l : list ascii) (c : ascii) :
  Js.isWhiteSpace c = false ->
  dropWhiteSpace (l ++ [c]) = dropWhiteSpace l ++ [c].
Proof.
  intros Hc. induction l as [|a l IH]; simpl.
  - now rewrite Hc.
  - destruct (Js.isWhiteSpace a); [exact IH|reflexivity].
Qed.

(** What [trim] leaves: nothing, or a first character that is no white
    space followed by the reverse of a list that is empty or starts with
    a character that is no white space. *)
Lemma trim_shape (s : string) :
  list_ascii_of_string (Js.trim s) = []
  \/ exists c tail,
       list_ascii_of_string (Js.trim s) = c :: rev tail
       /\ Js.isWhiteSpace c = false
       /\ dropWhiteSpace tail = tail
       /\ match tail with [] => True | x :: _ => Js.isWhiteSpace x = false end.
Proof.
  rewrite trim_list.
  pose proof (dropWhiteSpace_head (list_ascii_of_string s)) as Hhead.
  destruct (dropWhiteSpace (list_ascii_of_string s)) as [|c r]; [now left|].
  right. simpl rev. rewrite (dropWhiteSpace_snoc _ _ Hhead).
  exists c, (dropWhiteSpace (rev r)). rewrite rev_app_distr. simpl.
  split; [reflexivity|]. split; [exact Hhead|].
  pose proof (dropWhiteSpace_head (rev r)) as Htail.
  split; [|exact Htail].
  destruct (dropWhiteSpace (rev r)) as [|x t]; [reflexivity|].
  simpl. now rewrite Htail.
Qed.

Lemma trim_trimmed (s : string) : trimmed (Js.trim s).
Proof.
  unfold trimmed.
  destruct (trim_shape s) as [H|(c & tail & H & Hc & _ & Htail)]; rewrite H;
    [exact I|].
  split; [exact Hc|].
  destruct tail as [|x t]; [exact Hc|].
  simpl rev. rewrite app_comm_cons, last_last. exact Htail.
Qed.

Lemma trim_idempotent (s : string) : Js.trim (Js.trim s) = Js.trim s.
Proof.
  rewrite <- (string_of_list_ascii_of_string (Js.trim (Js.trim s))).
  rewrite <- (string_of_list_ascii_of_string (Js.trim s)) at 2.
  f_equal. rewrite (trim_list (Js.trim s)).
  destruct (trim_shape s) as [H|(c & tail & H & Hc & Hfix & _)]; rewrite H;
    [reflexivity|].
  simpl dropWhiteSpace. rewrite Hc. simpl rev. rewrite rev_involutive.
  rewrite (dropWhiteSpace_snoc _ _ Hc), Hfix, rev_app_distr. reflexivity.
Qed.

(** X23.  The New Session screen stores only trimmed text: either the name
    is blank and nothing is stored, or the session put first in the store
    has a name that is not empty, has white space at neither end and is its
    own trimming, and an object type that is absent or likewise non-empty
    and trimmed. *)
Theorem createSession_stores_trimmed (scr : NewSessionScreen.State) (now : Z)
    (date : string) (st : Store) :
  (Js.trim (NewSessionScreen.sessionName scr) = ""
   /\ snd (NewSessionScreen.createSession scr now date st) = st)
  \/ exists s,
       sessionsOf (snd (NewSessionScreen.createSession scr now date st))
       = s :: sessionsOf st
       /\ Session.name s <> ""
       /\ trimmed (Session.name s)
       /\ Js.trim (Session.name s) = Session.name s
       /\ match Session.objectType s with
          | None => Js.trim (NewSessionScreen.objectType scr) = ""
          | Some t => t <> "" /\ trimmed t /\ Js.trim t = t
          end.
Proof.
  unfold NewSessionScreen.createSession.
  destruct (Js.trim (NewSessionScreen.sessionName scr)) as [|c r] eqn:E.
  - left. split; reflexivity.
  - right. simpl. eexists. split; [reflexivity|]. simpl.
    rewrite <- E. split; [rewrite E; discriminate|].
    split; [apply trim_trimmed|]. split; [apply trim_idempotent|].
    destruct (Js.trim (NewSessionScreen.objectType scr)) as [|c' r'] eqn:E';
      simpl; [reflexivity|].
    rewrite <- E'. split; [rewrite E'; discriminate|].
    split; [apply trim_trimmed|apply trim_idempotent].
Qed.

(** ** What the image mutations never touch *)

Lemma updateSession_map {B} (f : Session.t -> B) (session stored : Session.t)
    (st : Store) :
  lookup (Session.id session) st = Some stored ->
  f session = f stored ->
  map f (sessionsOf (snd (updateSession session st))) = map f (sessionsOf st).
Proof.
  intros E Hf.
  destruct (updateSession_effect _ _ _ E) as (l1 & l2 & Hl & Hrun).
  rewrite Hrun, Hl. simpl. rewrite !map_app. simpl. now rewrite Hf.
Qed.

(** X24.  Adding an image, changing the count of an image and removing an
    image never add, remove or reorder sessions: the ids of the stored
    sessions are the same, in the same order, before and after; adding an
    image and changing a count also keep the name, the creation date and
    the object type of every session. *)
Theorem image_mutations_keep_sessions (m : Mutation) (st : Store) :
  match m with
  | CreateSession _ _ _ _ => True
  | RemoveImage _ _ =>
      map Session.id (sessionsOf (storeAfter m st))
      = map Session.id (sessionsOf st)
  | _ => map header (sessionsOf (storeAfter m st)) = map header (sessionsOf st)
  end.
Proof.
  destruct m as [name objectType now date
                |sessionId imagePath count detections now date
                |sessionId imageId newCount corrections
                |scr imageId]; cbn [storeAfter]; [exact I|..].
  - rewrite addImageToSession_run.
    destruct (lookup sessionId st) as [s|] eqn:E; [|reflexivity].
    pose proof (lookup_id _ _ _ E) as Hid.
    apply (updateSession_map header _ s); [simpl; now rewrite Hid|reflexivity].
  - rewrite updateImageCount_run.
    destruct (lookup sessionId st) as [s|] eqn:E; [|reflexivity].
    pose proof (lookup_id _ _ _ E) as Hid.
    destruct (find _ (Session.images s)); [|reflexivity].
    apply (updateSession_map header _ s); [simpl; now rewrite Hid|reflexivity].
  - rewrite deleteImage_store.
    destruct (SessionScreen.session scr) as [s|]; [|reflexivity].
    destruct (lookup (Session.id s) st) as [stored|] eqn:E.
    + apply (updateSession_map Session.id _ stored); [exact E|].
      simpl. symmetry. exact (lookup_id _ _ _ E).
    + match goal with
      | |- context [updateSession ?u st] =>
          rewrite (updateSession_missing u st E)
      end.
      reflexivity.
Qed.
